(** * SshTransport: the SSH/SFTP transport plugin of aida

    A shallow embedding of [aida/transport/plugins/ssh.py].  The transport is
    a thin layer over paramiko: every method of [paramiko.SSHClient],
    [paramiko.SFTPClient], [paramiko.Channel] and of the channel files is an
    external call whose answer (a value or an exception) is chosen by the
    environment.  A method of the transport is a finite tree of such calls;
    running it against an environment yields an outcome, the final state of
    the environment and the trace of calls in the order they were made. *)

From stdpp Require Import base strings list gmap pretty.
From Stdlib Require Import ZArith Lia Ascii.

Local Open Scope Z_scope.

(** ** Python values and exceptions *)

(** The exception classes the module raises, catches or lets through.
    [errno] is what [getattr(e, "errno", None)] evaluates to and [message]
    what [e.message] evaluates to. *)
Inductive pyexc : Type :=
| IOError (errno : option Z) (message : string)
| OSError (message : string)
| ValueError (message : string)
| AttributeError (message : string)
| TypeError (message : string)
| KeyError (message : string)
| TransportInternalError (message : string)
| SSHException (message : string).

Definition is_IOError (e : pyexc) : bool :=
  match e with IOError _ _ => true | _ => false end.

(** [getattr(e, "errno", None)] *)
Definition getattr_errno (e : pyexc) : option Z :=
  match e with IOError errno _ => errno | _ => None end.

Definition is_AttributeError (e : pyexc) : bool :=
  match e with AttributeError _ => true | _ => false end.

(** ** The paramiko objects *)

(** What [SFTPClient.stat] and [lstat] return: the six [st_*] attributes
    (each of them [None] when the server did not send it) and attributes that
    the transport never looks at. *)
Record SFTPAttributes : Type := mkSFTPAttributes {
  st_size : option Z;
  st_uid : option Z;
  st_gid : option Z;
  st_mode : option Z;
  st_atime : option Z;
  st_mtime : option Z;
  filename : string;
  longname : string
}.

(** A [paramiko.Channel], as returned by [open_session]. *)
Definition Channel : Type := nat.

(** A file object over a channel, [channel.makefile(mode, bufsize)] or
    [channel.makefile_stderr(mode, bufsize)]: the object is determined by the
    channel, the mode and the stream it is attached to. *)
Record ChannelFile : Type := mkChannelFile {
  cf_channel : Channel;
  cf_mode : string;
  cf_is_stderr : bool;
  cf_bufsize : Z
}.

(** The external calls. *)
Inductive call : Type :=
(* paramiko.SSHClient *)
| client_connect (machine : string)
| client_open_sftp
| client_close
| client_open_session                 (* get_transport().open_session() *)
(* paramiko.SFTPClient *)
| sftp_close
| sftp_chdir (path : string)
| sftp_normalize (path : string)
| sftp_getcwd
| sftp_stat (path : string)
| sftp_lstat (path : string)
| sftp_mkdir (path : string)
| sftp_rmdir (path : string)
| sftp_chmod (path : string) (mode : Z)
| sftp_put (localpath remotepath : string) (callback : option nat)
| sftp_get (remotepath localpath : string) (callback : option nat)
| sftp_listdir (path : string)
| sftp_remove (path : string)
(* paramiko.Channel *)
| channel_set_combine_stderr (ch : Channel) (combine : bool)
| channel_exec_command (ch : Channel) (command : string)
| channel_makefile (ch : Channel) (mode : string) (bufsize : Z)
| channel_makefile_stderr (ch : Channel) (mode : string) (bufsize : Z)
| channel_shutdown_write (ch : Channel)
| channel_recv_exit_status (ch : Channel)
(* paramiko.ChannelFile *)
| file_write (f : ChannelFile) (data : string)
| file_flush (f : ChannelFile)
| file_read (f : ChannelFile) (size : option Z).

(** The type of what a call returns. *)
Definition result (c : call) : Type :=
  match c with
  | client_open_session => Channel
  | sftp_normalize _ => string
  | sftp_getcwd => option string
  | sftp_stat _ | sftp_lstat _ | sftp_put _ _ _ => SFTPAttributes
  | sftp_listdir _ => list string
  | channel_recv_exit_status _ => Z
  | file_read _ _ => string
  | _ => unit
  end.

(** ** Logging *)

Inductive loglevel : Type := DEBUG | WARNING | ERROR.

(** The arguments of a [str.format] in a log message. *)
Inductive logarg : Type :=
| LStr (s : string)
| LInt (z : Z)
| LMode (m : option Z)
| LAttr (a : SFTPAttributes).

(** ** Programs *)

(** A method body: it returns, raises, makes an external call and goes on
    with its answer, or logs a message and goes on. *)
Inductive prog (A : Type) : Type :=
| Ret (a : A)
| Raise (e : pyexc)
| Call (c : call) (k : pyexc + result c -> prog A)
| Log (lvl : loglevel) (fmt : string) (args : list logarg) (k : prog A).

Arguments Ret {A} a.
Arguments Raise {A} e.
Arguments Call {A} c k.
Arguments Log {A} lvl fmt args k.

Fixpoint bind {A B : Type} (p : prog A) (f : A -> prog B) : prog B :=
  match p with
  | Ret a => f a
  | Raise e => Raise e
  | Call c k => Call c (fun r => bind (k r) f)
  | Log lvl fmt args k => Log lvl fmt args (bind k f)
  end.

(** An external call outside of any [try]: its exception propagates. *)
Definition ext (c : call) : prog (result c) :=
  Call c (fun r => match r with inl e => Raise e | inr v => Ret v end).

Definition log (lvl : loglevel) (fmt : string) (args : list logarg) : prog unit :=
  Log lvl fmt args (Ret tt).

(** [try: p  except <all>: h e]; a handler re-raises what its [except]
    clause does not catch. *)
Fixpoint try_except {A : Type} (p : prog A) (h : pyexc -> prog A) : prog A :=
  match p with
  | Ret a => Ret a
  | Raise e => h e
  | Call c k => Call c (fun r => try_except (k r) h)
  | Log lvl fmt args k => Log lvl fmt args (try_except k h)
  end.

(** [for x in xs: body x] *)
Fixpoint for_each {X : Type} (xs : list X) (body : X -> prog unit) : prog unit :=
  match xs with
  | [] => Ret tt
  | x :: xs' => bind (body x) (fun _ => for_each xs' body)
  end.

Declare Scope prog_scope.
Delimit Scope prog_scope with prog.
Notation "x <- p ;; q" := (bind p (fun x => q))
  (at level 100, p at next level, q at level 200, right associativity,
   only parsing) : prog_scope.
Notation "p ;;; q" := (bind p (fun _ => q))
  (at level 100, q at level 200, right associativity, only parsing) : prog_scope.
Local Open Scope prog_scope.

(** ** Running a program against an environment *)

(** An environment answers every call, from its state [W]. *)
Definition handler (W : Type) : Type :=
  forall c : call, W -> (pyexc + result c) * W.

Inductive event : Type :=
| EvCall (c : call) (r : pyexc + result c)
| EvLog (lvl : loglevel) (fmt : string) (args : list logarg).

Inductive outcome (A : Type) : Type :=
| Returned (a : A)
| Raised (e : pyexc).

Arguments Returned {A} a.
Arguments Raised {A} e.

Fixpoint run {W A : Type} (h : handler W) (p : prog A) (w : W)
  : outcome A * W * list event :=
  match p with
  | Ret a => (Returned a, w, [])
  | Raise e => (Raised e, w, [])
  | Call c k =>
      let '(r, w1) := h c w in
      let '(o, w2, t) := run h (k r) w1 in
      (o, w2, EvCall c r :: t)
  | Log lvl fmt args k =>
      let '(o, w1, t) := run h k w in
      (o, w1, EvLog lvl fmt args :: t)
  end.

Definition outcome_of {W A : Type} (x : outcome A * W * list event) : outcome A := x.1.1.
Definition world_of {W A : Type} (x : outcome A * W * list event) : W := x.1.2.
Definition trace_of {W A : Type} (x : outcome A * W * list event) : list event := x.2.

(** ** Helpers from the Python library *)

(** [stat.S_IFMT], [stat.S_ISDIR] and [stat.S_ISREG]; on [None] the bit
    operation raises [TypeError]. *)
Definition S_IFMT (m : Z) : Z := Z.land m 61440.   (* 0o170000 *)

Definition S_ISDIR (m : option Z) : prog bool :=
  match m with
  | Some m => Ret (Z.eqb (S_IFMT m) 16384)               (* 0o040000 *)
  | None => Raise (TypeError "unsupported operand type(s) for &")
  end.

Definition S_ISREG (m : option Z) : prog bool :=
  match m with
  | Some m => Ret (Z.eqb (S_IFMT m) 32768)               (* 0o100000 *)
  | None => Raise (TypeError "unsupported operand type(s) for &")
  end.

(** [not path], for a string. *)
Definition py_not (s : string) : bool :=
  match s with EmptyString => true | _ => false end.

(** [os.path.isabs] (posixpath): the path starts with a slash. *)
Definition isabs (s : string) : bool :=
  match s with
  | String c _ => Nat.eqb (nat_of_ascii c) 47    (* "/" *)
  | EmptyString => false
  end.

(** The characters [str.strip()] removes. *)
Definition is_whitespace (c : ascii) : bool :=
  let n := nat_of_ascii c in
  (Nat.eqb n 32 || Nat.leb 9 n && Nat.leb n 13)%bool.

Fixpoint lstrip (s : string) : string :=
  match s with
  | String c s' => if is_whitespace c then lstrip s' else s
  | EmptyString => EmptyString
  end.

Fixpoint rstrip (s : string) : string :=
  match s with
  | String c s' =>
      match rstrip s' with
      | EmptyString => if is_whitespace c then EmptyString else String c EmptyString
      | r => String c r
      end
  | EmptyString => EmptyString
  end.

Definition strip (s : string) : string := rstrip (lstrip s).

(** [StringIO.StringIO(s).readlines()]: the lines of [s], each with its
    newline. *)
Fixpoint readlines_from (cur : string) (s : string) : list string :=
  match s with
  | EmptyString =>
      match cur with EmptyString => [] | _ => [String.rev cur] end
  | String c s' =>
      if Nat.eqb (nat_of_ascii c) 10
      then String.rev (String c cur) :: readlines_from EmptyString s'
      else readlines_from (String c cur) s'
  end.

Definition StringIO_readlines (s : string) : list string :=
  readlines_from EmptyString s.

(** ** The transport *)

(** [FileAttribute._valid_fields] *)
Definition _valid_fields : list string :=
  ["st_size"; "st_uid"; "st_gid"; "st_mode"; "st_atime"; "st_mtime"].

(** Modelled from the spec: [FixedFieldsAttributeDict]
    (aida.common.extendeddicts), the base class of [FileAttribute], is not in
    this module.  The record is a dictionary from field names to values; it
    is created empty, and assigning or reading a name that is not one of
    [_valid_fields] is an error. *)
Abbreviation FileAttribute := (gmap string (option Z)).

Definition FileAttribute_new : FileAttribute := ∅.

Definition FileAttribute_setitem (d : FileAttribute) (key : string) (value : option Z)
  : prog FileAttribute :=
  if bool_decide (key ∈ _valid_fields)
  then Ret (<[key := value]> d)
  else Raise (KeyError key).

Definition FileAttribute_getattr (d : FileAttribute) (key : string)
  : prog (option Z) :=
  match d !! key with
  | Some v => Ret v
  | None => Raise (AttributeError key)
  end.

(** [getattr(paramiko_attr, key)] *)
Definition getattr (a : SFTPAttributes) (key : string) : prog (option Z) :=
  if String.eqb key "st_size" then Ret (st_size a)
  else if String.eqb key "st_uid" then Ret (st_uid a)
  else if String.eqb key "st_gid" then Ret (st_gid a)
  else if String.eqb key "st_mode" then Ret (st_mode a)
  else if String.eqb key "st_atime" then Ret (st_atime a)
  else if String.eqb key "st_mtime" then Ret (st_mtime a)
  else Raise (AttributeError key).

(** The fields of the transport object that its methods read.  The paramiko
    client and the SFTP client that [_client] and [_sftp] point to live in
    the environment. *)
Record SshTransport : Type := mkSshTransport {
  _is_open : bool;
  _machine : string
}.

(** The state [__init__] leaves: [self._is_open = False]. *)
Definition __init__ (machine : string) : SshTransport :=
  {| _is_open := false; _machine := machine |}.

(** The objects that can be passed as [stdin] to [exec_command_wait]
    ([None] apart). *)
Inductive pyobject : Type :=
| PyStr (s : string)                    (* a basestring *)
| PyStringIO (s : string)               (* StringIO.StringIO(s) *)
| PyFile (lines : list string)          (* another object with readlines() *)
| PyOther.                              (* an object without readlines *)

(** [isinstance(x, basestring)] *)
Definition is_basestring (x : pyobject) : bool :=
  match x with PyStr _ => true | _ => false end.

(** [x.readlines()] *)
Definition readlines (x : pyobject) : prog (list string) :=
  match x with
  | PyStringIO s => Ret (StringIO_readlines s)
  | PyFile lines => Ret lines
  | PyStr _ | PyOther =>
      Raise (AttributeError "object has no attribute 'readlines'")
  end.

Section Methods.

(** [aida.common.utils.escape_for_bash] is imported from another module:
    the methods are given for any escaping function. *)
Variable escape_for_bash : string -> string.

(** The properties [sshclient] and [sftp]: they raise when the transport
    is not open and give access to the client otherwise. *)
Definition sshclient (self : SshTransport) : prog unit :=
  if negb (_is_open self)
  then Raise (TransportInternalError
                "Error, ssh method called for SshTransport without opening the channel first")
  else Ret tt.

Definition sftp (self : SshTransport) : prog unit :=
  if negb (_is_open self)
  then Raise (TransportInternalError
                "Error, sftp method called for SshTransport without opening the channel first")
  else Ret tt.

Definition __enter__ (self : SshTransport) : prog SshTransport :=
  ext (client_connect (_machine self)) ;;;
  ext client_open_sftp ;;;
  here <- ext (sftp_normalize ".") ;;
  ext (sftp_chdir here) ;;;
  Ret {| _is_open := true; _machine := _machine self |}.

Definition __exit__ (self : SshTransport) : prog SshTransport :=
  ext sftp_close ;;;
  ext client_close ;;;
  Ret {| _is_open := false; _machine := _machine self |}.

Definition chdir (self : SshTransport) (path : option string) : prog unit :=
  match path with
  | Some p => sftp self ;;; ext (sftp_chdir p)
  | None => Ret tt
  end ;;;
  sftp self ;;;
  _ <- ext (sftp_stat ".") ;;
  Ret tt.

Definition normalize (self : SshTransport) (path : string) : prog string :=
  sftp self ;;; ext (sftp_normalize path).

Definition getcwd (self : SshTransport) : prog (option string) :=
  sftp self ;;; ext sftp_getcwd.

Definition mkdir (self : SshTransport) (path : string) : prog unit :=
  try_except
    (sftp self ;;; ext (sftp_mkdir path))
    (fun e => match e with
              | IOError _ message => Raise (OSError message)
              | _ => Raise e
              end).

Definition rmdir (self : SshTransport) (path : string) : prog unit :=
  sftp self ;;; ext (sftp_rmdir path).

(** The handler of [except IOError as e] in [isdir] and [isfile]. *)
Definition except_no_such_file (e : pyexc) : prog bool :=
  if is_IOError e then
    if bool_decide (getattr_errno e = Some 2) then Ret false else Raise e
  else Raise e.

Definition isdir (self : SshTransport) (path : string) : prog bool :=
  if py_not path then Ret false
  else
    try_except
      (sftp self ;;;
       a <- ext (sftp_stat path) ;;
       S_ISDIR (st_mode a))
      except_no_such_file.

Definition chmod (self : SshTransport) (path : string) (mode : Z) : prog unit :=
  if py_not path then Raise (IOError None "Input path is an empty argument.")
  else sftp self ;;; ext (sftp_chmod path mode).

Definition put (self : SshTransport) (localpath remotepath : string)
    (callback : option nat) : prog SFTPAttributes :=
  if negb (isabs localpath)
  then Raise (ValueError "The localpath must be an absolute path")
  else sftp self ;;; ext (sftp_put localpath remotepath callback).

Definition get (self : SshTransport) (remotepath localpath : string)
    (callback : option nat) : prog unit :=
  if negb (isabs localpath)
  then Raise (ValueError "The localpath must be an absolute path")
  else sftp self ;;; ext (sftp_get remotepath localpath callback).

Definition get_attribute (self : SshTransport) (path : string) : prog FileAttribute :=
  sftp self ;;;
  paramiko_attr <- ext (sftp_lstat path) ;;
  foldl (fun acc key =>
           aida_attr <- acc ;;
           v <- getattr paramiko_attr key ;;
           FileAttribute_setitem aida_attr key v)
        (Ret FileAttribute_new) _valid_fields.

Definition listdir (self : SshTransport) (path : string) : prog (list string) :=
  sftp self ;;; ext (sftp_listdir path).

Definition remove (self : SshTransport) (path : string) : prog unit :=
  sftp self ;;; ext (sftp_remove path).

Definition isfile (self : SshTransport) (path : string) : prog bool :=
  if py_not path then Ret false
  else
    try_except
      (sftp self ;;;
       n <- ext (sftp_normalize path) ;;
       sftp self ;;;
       a1 <- ext (sftp_stat path) ;;
       sftp self ;;;
       a2 <- ext (sftp_stat path) ;;
       log DEBUG "stat for path '{}' ('{}'): {} [{}]"
           [LStr path; LStr n; LAttr a1; LMode (st_mode a2)] ;;;
       sftp self ;;;
       a3 <- ext (sftp_stat path) ;;
       S_ISREG (st_mode a3))
      except_no_such_file.

Definition _exec_command_internal (self : SshTransport) (command : string)
    (combine_stderr : bool) (bufsize : Z)
  : prog (ChannelFile * ChannelFile * ChannelFile * Channel) :=
  sshclient self ;;;
  channel <- ext client_open_session ;;
  ext (channel_set_combine_stderr channel combine_stderr) ;;;
  cwd <- getcwd self ;;
  command_to_execute <-
    match cwd with
    | Some _ =>
        cwd' <- getcwd self ;;
        match cwd' with
        | Some folder =>
            Ret ("cd " +:+ escape_for_bash folder +:+ " && " +:+ command)
        | None => Raise (TypeError "escape_for_bash: expected a string")
        end
    | None => Ret command
    end ;;
  log DEBUG "Command to be executed: {}" [LStr command_to_execute] ;;;
  ext (channel_exec_command channel command_to_execute) ;;;
  ext (channel_makefile channel "wb" bufsize) ;;;
  ext (channel_makefile channel "rb" bufsize) ;;;
  ext (channel_makefile_stderr channel "rb" bufsize) ;;;
  Ret (mkChannelFile channel "wb" false bufsize,
       mkChannelFile channel "rb" false bufsize,
       mkChannelFile channel "rb" true bufsize,
       channel).

(** The [try] block of [exec_command_wait] that feeds [stdin]. *)
Definition write_stdin (ssh_stdin : ChannelFile) (stdin : pyobject) : prog unit :=
  let filelike_stdin :=
    match stdin with
    | PyStr s => PyStringIO s
    | _ => stdin
    end in
  try_except
    (lines <- readlines filelike_stdin ;;
     for_each lines (fun l => ext (file_write ssh_stdin l)))
    (fun e =>
       if is_AttributeError e
       then Raise (ValueError "stdin can only be either a string of a file-like object!")
       else Raise e).

Definition exec_command_wait (self : SshTransport) (command : string)
    (stdin : option pyobject) (combine_stderr : bool) (bufsize : Z)
  : prog (Z * string * string) :=
  r <- _exec_command_internal self command combine_stderr bufsize ;;
  let '(ssh_stdin, stdout, stderr, channel) := r return prog (Z * string * string) in
  match stdin with
  | Some x => write_stdin ssh_stdin x
  | None => Ret tt
  end ;;;
  ext (file_flush ssh_stdin) ;;;
  ext (channel_shutdown_write (cf_channel ssh_stdin)) ;;;
  output_text <- ext (file_read stdout None) ;;
  retval <- ext (channel_recv_exit_status channel) ;;
  stderr_text <- ext (file_read stderr None) ;;
  Ret (retval, output_text, stderr_text).

Definition copy (self : SshTransport) (remotesource remotedestination : string)
    (dereference : bool) : prog bool :=
  let cp_exe := "cp" in
  let cp_flags := "-r -f" in
  let cp_flags := if dereference then cp_flags +:+ " -L" else cp_flags in
  if py_not remotesource
  then Raise (ValueError ("Input to copy() must be a non empty string. "
                          +:+ "Found instead " +:+ remotesource +:+ " as remotesource"))
  else if py_not remotedestination
  then Raise (ValueError ("Input to copy() must be a non empty string. "
                          +:+ "Found instead " +:+ remotedestination
                          +:+ " as remotedestination"))
  else
    let command :=
      cp_exe +:+ " " +:+ cp_flags +:+ " " +:+ escape_for_bash remotesource
             +:+ " " +:+ escape_for_bash remotedestination in
    r <- exec_command_wait self command None false (-1) ;;
    let '(retval, stdout, stderr) := r return prog bool in
    if Z.eqb retval 0 then
      (if negb (py_not (strip stderr))
       then log WARNING "There was nonempty stderr in the cp command: {}"
                [LStr stderr]
       else Ret tt) ;;;
      Ret true
    else
      log ERROR "Problem executing cp. Exit code: {}, stdout: '{}', stderr: '{}'"
          [LInt retval; LStr stdout; LStr stderr] ;;;
      Raise (IOError None ("Error while executing cp. Exit code: " +:+ pretty retval)).

End Methods.

(** ** A reference environment

    A small remote host behind paramiko, used to run the methods on concrete
    inputs: the SFTP client keeps its emulated working directory [r_cwd]; the
    host has directories and regular files, directories that cannot be
    searched, and paths where nothing can be created; every command run on a
    channel ends with [r_exit_status] after writing [r_stdout] and
    [r_stderr]. *)
Record remote : Type := mkRemote {
  r_cwd : option string;
  r_dirs : list string;
  r_files : list string;
  r_noaccess : list string;
  r_readonly : list string;
  r_next_channel : nat;
  r_exit_status : Z;
  r_stdout : string;
  r_stderr : string
}.

Definition set_cwd (w : remote) (cwd : option string) : remote :=
  mkRemote cwd (r_dirs w) (r_files w) (r_noaccess w) (r_readonly w)
           (r_next_channel w) (r_exit_status w) (r_stdout w) (r_stderr w).

Definition set_dirs (w : remote) (dirs : list string) : remote :=
  mkRemote (r_cwd w) dirs (r_files w) (r_noaccess w) (r_readonly w)
           (r_next_channel w) (r_exit_status w) (r_stdout w) (r_stderr w).

Definition set_next_channel (w : remote) (n : nat) : remote :=
  mkRemote (r_cwd w) (r_dirs w) (r_files w) (r_noaccess w) (r_readonly w)
           n (r_exit_status w) (r_stdout w) (r_stderr w).

Definition dir_attributes : SFTPAttributes :=
  mkSFTPAttributes (Some 4096) (Some 1000) (Some 1000) (Some 16877)
                   (Some 1700000000) (Some 1600000000) "" "drwxr-xr-x".

Definition file_attributes : SFTPAttributes :=
  mkSFTPAttributes (Some 12) (Some 1000) (Some 1000) (Some 33188)
                   (Some 1700000000) (Some 1600000000) "" "-rw-r--r--".

Definition ENOENT : pyexc := IOError (Some 2) "No such file".
Definition EACCES : pyexc := IOError (Some 13) "Permission denied".

(** [stat] of a path; ["."] is the working directory of the SFTP client,
    which must be searchable. *)
Definition remote_stat (w : remote) (path : string) : pyexc + SFTPAttributes :=
  if String.eqb path "." then
    match r_cwd w with
    | Some d => if bool_decide (d ∈ r_noaccess w) then inl EACCES else inr dir_attributes
    | None => inr dir_attributes
    end
  else if bool_decide (path ∈ r_dirs w) then inr dir_attributes
  else if bool_decide (path ∈ r_files w) then inr file_attributes
  else inl ENOENT.

Definition paramiko : handler remote :=
  fun c w =>
    match c as c0 return (pyexc + result c0) * remote with
    | client_connect _ => (inr tt, w)
    | client_open_sftp => (inr tt, w)
    | client_close => (inr tt, w)
    | client_open_session =>
        (inr (r_next_channel w), set_next_channel w (S (r_next_channel w)))
    | sftp_close => (inr tt, w)
    | sftp_chdir path =>
        if bool_decide (path ∈ r_dirs w) then (inr tt, set_cwd w (Some path))
        else if bool_decide (path ∈ r_files w)
             then (inl (IOError (Some 20) "Not a directory"), w)
             else (inl ENOENT, w)
    | sftp_normalize path =>
        if String.eqb path "."
        then (inr (default "/home/user" (r_cwd w)), w)
        else (inr path, w)
    | sftp_getcwd => (inr (r_cwd w), w)
    | sftp_stat path => (remote_stat w path, w)
    | sftp_lstat path => (remote_stat w path, w)
    | sftp_mkdir path =>
        if bool_decide (path ∈ r_dirs w) || bool_decide (path ∈ r_files w)
        then (inl (IOError None "Failure"), w)
        else if bool_decide (path ∈ r_readonly w) then (inl EACCES, w)
        else (inr tt, set_dirs w (path :: r_dirs w))
    | sftp_rmdir _ => (inr tt, w)
    | sftp_chmod _ _ => (inr tt, w)
    | sftp_put _ _ _ => (inr file_attributes, w)
    | sftp_get _ _ _ => (inr tt, w)
    | sftp_listdir _ => (inr (r_files w), w)
    | sftp_remove _ => (inr tt, w)
    | channel_set_combine_stderr _ _ => (inr tt, w)
    | channel_exec_command _ _ => (inr tt, w)
    | channel_makefile _ _ _ => (inr tt, w)
    | channel_makefile_stderr _ _ _ => (inr tt, w)
    | channel_shutdown_write _ => (inr tt, w)
    | channel_recv_exit_status _ => (inr (r_exit_status w), w)
    | file_write _ _ => (inr tt, w)
    | file_flush _ => (inr tt, w)
    | file_read f _ =>
        (inr (if cf_is_stderr f then r_stderr w else r_stdout w), w)
    end.

(** A host with a home directory, a directory that cannot be searched and
    one in which nothing can be created. *)
Definition host : remote :=
  {| r_cwd := Some "/home/user";
     r_dirs := ["/home/user"; "/home/user/data"; "/secret"; "/srv"];
     r_files := ["/home/user/notes.txt"];
     r_noaccess := ["/secret"];
     r_readonly := ["/srv/new"];
     r_next_channel := 0%nat;
     r_exit_status := 0;
     r_stdout := "";
     r_stderr := "" |}.

Definition with_command_result (w : remote) (status : Z) (out err : string) : remote :=
  mkRemote (r_cwd w) (r_dirs w) (r_files w) (r_noaccess w) (r_readonly w)
           (r_next_channel w) status out err.

(** Modelled from the spec: [escape_for_bash] (aida.common.utils) is not in
    this module; the spec asks that it shell-escapes its argument so that
    spaces and metacharacters are tolerated.  The usual escaping is taken:
    the string between single quotes, every single quote of it written
    ['"'"']. *)
Fixpoint escape_quotes (s : string) : string :=
  match s with
  | EmptyString => EmptyString
  | String c s' =>
      if Nat.eqb (nat_of_ascii c) 39
      then "'" +:+ String (ascii_of_nat 34) "'" +:+ String (ascii_of_nat 34) "'"
           +:+ escape_quotes s'
      else String c (escape_quotes s')
  end.

Definition quote_for_bash (s : string) : string :=
  "'" +:+ escape_quotes s +:+ "'".

Definition opened : SshTransport := {| _is_open := true; _machine := "localhost" |}.

(** ** Reading traces *)

(** The request of an event and the exception it ended with, if any. *)
Definition request_of (e : event) : option call :=
  match e with EvCall c _ => Some c | EvLog _ _ _ => None end.

Definition failure_of (e : event) : option pyexc :=
  match e with EvCall _ (inl x) => Some x | _ => None end.

Definition returned (e : event) : bool :=
  match e with EvCall _ (inr _) => true | _ => false end.

(** The requests a run made to paramiko, in order. *)
Definition requests (t : list event) : list call := omap request_of t.

(** The exceptions paramiko raised during a run. *)
Definition failures (t : list event) : list pyexc := omap failure_of t.

(** The steps of [exec_command_wait] on the streams of a channel. *)
Definition flushes_stdin (e : event) : bool :=
  match request_of e with
  | Some (file_flush f) => negb (cf_is_stderr f) && String.eqb (cf_mode f) "wb"
  | _ => false
  end.

Definition shuts_down_write (e : event) : bool :=
  match request_of e with
  | Some (channel_shutdown_write _) => true
  | _ => false
  end.

(** [stdout.read()]: the output stream, read with no size limit. *)
Definition reads_stdout (e : event) : bool :=
  match request_of e with
  | Some (file_read f None) => negb (cf_is_stderr f) && String.eqb (cf_mode f) "rb"
  | _ => false
  end.

Definition requests_exit_status (e : event) : bool :=
  match request_of e with
  | Some (channel_recv_exit_status _) => true
  | _ => false
  end.

(** [stderr.read()]: the error stream, read with no size limit. *)
Definition reads_stderr (e : event) : bool :=
  match request_of e with
  | Some (file_read f None) => cf_is_stderr f && String.eqb (cf_mode f) "rb"
  | _ => false
  end.

(** Any traffic on the streams of a channel, and the draining steps. *)
Definition is_stream_io (e : event) : bool :=
  match request_of e with
  | Some (file_write _ _) | Some (file_flush _) | Some (file_read _ _)
  | Some (channel_shutdown_write _) | Some (channel_recv_exit_status _) => true
  | _ => false
  end.

Definition is_stdin_write (e : event) : bool :=
  match request_of e with
  | Some (file_write _ _) => true
  | _ => false
  end.

Definition is_drain_step (e : event) : bool :=
  match request_of e with
  | Some (file_read _ _) | Some (channel_recv_exit_status _) => true
  | _ => false
  end.

(** [done_before P Q t]: in the trace [t], every event [Q] comes after an
    event [P] that has returned. *)
Definition done_before (P Q : event -> bool) (t : list event) : Prop :=
  forall t1 e t2, t = t1 ++ e :: t2 -> Q e = true ->
    exists e', e' ∈ t1 /\ P e' = true /\ returned e' = true.

(** The same, as a check that runs along the trace; [seen] tells whether an
    event [P] has returned already. *)
Fixpoint done_beforeb (P Q : event -> bool) (seen : bool) (t : list event) : bool :=
  match t with
  | [] => true
  | e :: t' =>
      implb (Q e) seen && done_beforeb P Q (seen || (P e && returned e)) t'
  end.

(** What [stat] returned during a run, in order. *)
Definition stat_answer (e : event) : option SFTPAttributes :=
  match e with
  | EvCall (sftp_stat _) (inr a) => Some a
  | _ => None
  end.

Definition stat_answers (t : list event) : list SFTPAttributes :=
  omap stat_answer t.

(** What [isdir] and [isfile] promise for a path that is not empty, on an
    open transport; [test] is the test on the mode bits and [r] a run.  A
    failure with [errno] 2 gives [False], any other failure is raised again,
    and without a failure the answer is the test of the mode that the last
    [stat] of the path returned. *)
Definition existence_check (path : string) (test : Z -> bool) {W : Type}
    (r : outcome bool * W * list event) : Prop :=
  (forall c, c ∈ requests (trace_of r) ->
     c = sftp_stat path \/ c = sftp_normalize path) /\
  (forall x, x ∈ failures (trace_of r) ->
     outcome_of r =
       if bool_decide (getattr_errno x = Some 2) then Returned false else Raised x) /\
  (failures (trace_of r) = [] ->
     sftp_stat path ∈ requests (trace_of r) /\
     exists a, last (stat_answers (trace_of r)) = Some a /\
       outcome_of r =
         match st_mode a with
         | Some m => Returned (test m)
         | None => Raised (TypeError "unsupported operand type(s) for &")
         end).

(** [x] has a [readlines] method. *)
Definition is_filelike (x : pyobject) : bool :=
  match x with PyStringIO _ | PyFile _ => true | _ => false end.

(** A call of a method of the transport, and the value it returns. *)
Inductive method : Type :=
| call_chdir (path : option string)
| call_normalize (path : string)
| call_getcwd
| call_mkdir (path : string)
| call_rmdir (path : string)
| call_isdir (path : string)
| call_chmod (path : string) (mode : Z)
| call_put (localpath remotepath : string) (callback : option nat)
| call_get (remotepath localpath : string) (callback : option nat)
| call_get_attribute (path : string)
| call_copy (remotesource remotedestination : string) (dereference : bool)
| call_listdir (path : string)
| call_remove (path : string)
| call_isfile (path : string)
| call__exec_command_internal (command : string) (combine_stderr : bool) (bufsize : Z)
| call_exec_command_wait (command : string) (stdin : option pyobject)
    (combine_stderr : bool) (bufsize : Z).

Inductive pyvalue : Type :=
| VNone
| VBool (b : bool)
| VStr (s : string)
| VOptStr (s : option string)
| VList (l : list string)
| VAttributes (a : SFTPAttributes)
| VFileAttribute (d : FileAttribute)
| VChannel (x : ChannelFile * ChannelFile * ChannelFile * Channel)
| VResult (x : Z * string * string).

Definition invoke (escape_for_bash : string -> string) (self : SshTransport)
    (m : method) : prog pyvalue :=
  match m with
  | call_chdir path => _ <- chdir self path ;; Ret VNone
  | call_normalize path => x <- normalize self path ;; Ret (VStr x)
  | call_getcwd => x <- getcwd self ;; Ret (VOptStr x)
  | call_mkdir path => _ <- mkdir self path ;; Ret VNone
  | call_rmdir path => _ <- rmdir self path ;; Ret VNone
  | call_isdir path => x <- isdir self path ;; Ret (VBool x)
  | call_chmod path mode => _ <- chmod self path mode ;; Ret VNone
  | call_put l r cb => x <- put self l r cb ;; Ret (VAttributes x)
  | call_get r l cb => _ <- get self r l cb ;; Ret VNone
  | call_get_attribute path => x <- get_attribute self path ;; Ret (VFileAttribute x)
  | call_copy src dst deref => x <- copy escape_for_bash self src dst deref ;; Ret (VBool x)
  | call_listdir path => x <- listdir self path ;; Ret (VList x)
  | call_remove path => _ <- remove self path ;; Ret VNone
  | call_isfile path => x <- isfile self path ;; Ret (VBool x)
  | call__exec_command_internal command combine bufsize =>
      x <- _exec_command_internal escape_for_bash self command combine bufsize ;;
      Ret (VChannel x)
  | call_exec_command_wait command stdin combine bufsize =>
      x <- exec_command_wait escape_for_bash self command stdin combine bufsize ;;
      Ret (VResult x)
  end.

(** The methods that test their argument before they reach for the SFTP
    or SSH client, on the arguments that do not pass the test. *)
Definition rejects_argument (m : method) : bool :=
  match m with
  | call_isdir path | call_isfile path | call_chmod path _ => py_not path
  | call_put localpath _ _ | call_get _ localpath _ => negb (isabs localpath)
  | call_copy src dst _ => py_not src || py_not dst
  | _ => false
  end.

(** What [getcwd()] returned during a run, in order. *)
Definition getcwd_answer (e : event) : option (option string) :=
  match e with
  | EvCall sftp_getcwd (inr cwd) => Some cwd
  | _ => None
  end.

Definition getcwd_answers (t : list event) : list (option string) :=
  omap getcwd_answer t.

(** The last part of a run of [exec_command_wait], from the flush of the
    input stream on: how far the run got, and what it ended with.  [fin],
    [fout] and [ferr] are the three files of the channel [ch]. *)
Inductive drained (ch : Channel) (fin fout ferr : ChannelFile)
  : outcome (Z * string * string) -> list event -> Prop :=
| drained_flush_raised x :
    drained ch fin fout ferr (Raised x)
      [EvCall (file_flush fin) (inl x)]
| drained_shutdown_raised x :
    drained ch fin fout ferr (Raised x)
      [EvCall (file_flush fin) (inr tt);
       EvCall (channel_shutdown_write (cf_channel fin)) (inl x)]
| drained_stdout_raised x :
    drained ch fin fout ferr (Raised x)
      [EvCall (file_flush fin) (inr tt);
       EvCall (channel_shutdown_write (cf_channel fin)) (inr tt);
       EvCall (file_read fout None) (inl x)]
| drained_status_raised x out :
    drained ch fin fout ferr (Raised x)
      [EvCall (file_flush fin) (inr tt);
       EvCall (channel_shutdown_write (cf_channel fin)) (inr tt);
       EvCall (file_read fout None) (inr out);
       EvCall (channel_recv_exit_status ch) (inl x)]
| drained_stderr_raised x out retval :
    drained ch fin fout ferr (Raised x)
      [EvCall (file_flush fin) (inr tt);
       EvCall (channel_shutdown_write (cf_channel fin)) (inr tt);
       EvCall (file_read fout None) (inr out);
       EvCall (channel_recv_exit_status ch) (inr retval);
       EvCall (file_read ferr None) (inl x)]
| drained_completed out retval err :
    drained ch fin fout ferr (Returned (retval, out, err))
      [EvCall (file_flush fin) (inr tt);
       EvCall (channel_shutdown_write (cf_channel fin)) (inr tt);
       EvCall (file_read fout None) (inr out);
       EvCall (channel_recv_exit_status ch) (inr retval);
       EvCall (file_read ferr None) (inr err)].

(** ** The constructor and the description of a transport *)

(** The values given as keyword arguments. *)
Inductive pyarg : Type :=
| ArgNone
| ArgBool (b : bool)
| ArgInt (z : Z)
| ArgStr (s : string)
| ArgObject (repr : string).

(** [if x:] *)
Definition truthy (x : pyarg) : bool :=
  match x with
  | ArgNone => false
  | ArgBool b => b
  | ArgInt z => negb (Z.eqb z 0)
  | ArgStr s => negb (py_not s)
  | ArgObject _ => true
  end.

(** A dictionary with string keys, as the list of its items in iteration
    order; the keys of a dictionary are distinct. *)
Abbreviation pydict := (list (string * pyarg)).

Fixpoint dict_get (d : pydict) (k : string) : option pyarg :=
  match d with
  | [] => None
  | (k', v) :: d' => if String.eqb k' k then Some v else dict_get d' k
  end.

Fixpoint dict_del (d : pydict) (k : string) : pydict :=
  match d with
  | [] => []
  | (k', v) :: d' =>
      if String.eqb k' k then dict_del d' k else (k', v) :: dict_del d' k
  end.

(** [d[k] = v] *)
Definition dict_set (d : pydict) (k : string) (v : pyarg) : pydict :=
  match dict_get d k with
  | Some _ => map (fun kv => if String.eqb kv.1 k then (k, v) else kv) d
  | None => d ++ [(k, v)]
  end.

Definition dict_keys (d : pydict) : list string := map fst d.

(** [SshTransport._valid_connect_params] *)
Definition _valid_connect_params : list string :=
  ["port"; "username"; "password"; "pkey"; "key_filename"; "timeout";
   "allow_agent"; "look_for_keys"; "compress"].

(** The loop of [__init__] over [_valid_connect_params]: each parameter that
    [kwargs] has is popped from it and stored in [_connect_args]. *)
Fixpoint pop_connect_args (params : list string) (kwargs connect_args : pydict)
  : pydict * pydict :=
  match params with
  | [] => (kwargs, connect_args)
  | k :: params' =>
      match dict_get kwargs k with
      | Some v => pop_connect_args params' (dict_del kwargs k) (dict_set connect_args k v)
      | None => pop_connect_args params' kwargs connect_args
      end
  end.

(** What [__init__] does to the paramiko client it creates. *)
Inductive client_setup : Type :=
| setup_load_system_host_keys
| setup_set_missing_host_key_policy (policy : pyarg).

(** The attributes that [__init__] sets, beside those of [SshTransport]. *)
Record SshTransportConfig : Type := mkSshTransportConfig {
  transport : SshTransport;
  _load_system_host_keys : pyarg;
  _missing_key_policy : pyarg;
  _connect_args : pydict
}.

(** [paramiko.RejectPolicy()] *)
Definition RejectPolicy : pyarg := ArgObject "paramiko.RejectPolicy()".

(** [SshTransport.__init__(machine, **kwargs)], with what it asks of the
    client, in order.  [load_keys] is what [load_system_host_keys()] does
    when it is called: it returns ([None]) or raises. *)
Definition SshTransport__init__ (machine : string) (kwargs : pydict)
    (load_keys : option pyexc) : list client_setup * (pyexc + SshTransportConfig) :=
  let self := __init__ machine in
  let load := default (ArgBool false) (dict_get kwargs "load_system_host_keys") in
  let kwargs := dict_del kwargs "load_system_host_keys" in
  match (if truthy load then load_keys else None) with
  | Some e => ([setup_load_system_host_keys], inl e)
  | None =>
      let setup := if truthy load then [setup_load_system_host_keys] else [] in
      let policy := default RejectPolicy (dict_get kwargs "key_policy") in
      let kwargs := dict_del kwargs "key_policy" in
      let setup := setup ++ [setup_set_missing_host_key_policy policy] in
      let '(kwargs, connect_args) := pop_connect_args _valid_connect_params kwargs [] in
      match kwargs with
      | [] => (setup, inr (mkSshTransportConfig self load policy connect_args))
      | _ =>
          (setup,
           inl (ValueError ("The following parameters were not accepted by the transport: "
                            +:+ String.concat "," (dict_keys kwargs))))
      end
  end.

(** The keywords [__init__] accepts. *)
Definition accepted_keywords : list string :=
  "load_system_host_keys" :: "key_policy" :: _valid_connect_params.

(** A byte string that the ASCII codec decodes: no byte is 128 or more. *)
Fixpoint is_ascii (s : string) : bool :=
  match s with
  | EmptyString => true
  | String c s' => Nat.ltb (nat_of_ascii c) 128 && is_ascii s'
  end.

(** What building a unicode string gives: the text, or the
    [UnicodeDecodeError] raised on the byte string that does not decode. *)
Inductive unicode_result : Type :=
| Unicode (text : string)
| UnicodeDecodeError (object : string).

(** [str(x)]; an object is given by the text that [str] makes of it. *)
Definition text_of (x : pyarg) : string :=
  match x with
  | ArgNone => "None"
  | ArgBool true => "True"
  | ArgBool false => "False"
  | ArgInt z => pretty z
  | ArgStr s => s
  | ArgObject repr => repr
  end.

(** [unicode(x)], and [x] formatted by [u'{}'.format(x)]: a byte string is
    decoded with the ASCII codec, which raises on a byte that is not
    ASCII. *)
Definition unicode_of (x : pyarg) : unicode_result :=
  match x with
  | ArgStr s | ArgObject s => if is_ascii s then Unicode s else UnicodeDecodeError s
  | _ => Unicode (text_of x)
  end.

Definition unicode_bind (r : unicode_result) (k : string -> unicode_result)
  : unicode_result :=
  match r with
  | Unicode text => k text
  | UnicodeDecodeError object => UnicodeDecodeError object
  end.

(** [__unicode__]: only the [KeyError] of a missing [username] or [port] is
    caught. *)
Definition __unicode__ (self : SshTransportConfig) : unicode_result :=
  unicode_bind (unicode_of (ArgStr (_machine (transport self)))) (fun conn_info =>
  unicode_bind
    (match dict_get (_connect_args self) "username" with
     | Some username =>
         unicode_bind (unicode_of username) (fun u =>
         Unicode (u +:+ "@" +:+ conn_info))
     | None => Unicode conn_info
     end) (fun conn_info =>
  unicode_bind
    (match dict_get (_connect_args self) "port" with
     | Some port =>
         unicode_bind (unicode_of port) (fun p =>
         Unicode (conn_info +:+ ":" +:+ p))
     | None => Unicode conn_info
     end) (fun conn_info =>
  Unicode ("SshTransport" +:+ "(" +:+ conn_info +:+ ")")))).

(** [unicode(x)] does not raise. *)
Definition decodes (x : pyarg) : bool :=
  match unicode_of x with
  | Unicode _ => true
  | UnicodeDecodeError _ => false
  end.

(** ** Reading what was written to the input stream *)

(** The data of the writes that returned, in order. *)
Definition written (e : event) : option string :=
  match e with
  | EvCall (file_write _ data) (inr _) => Some data
  | _ => None
  end.

Definition written_data (t : list event) : list string := omap written t.

(** The strings of a list, one after the other. *)
Definition joined (l : list string) : string := foldr String.append "" l.

(** The characters of a string. *)
Fixpoint characters (s : string) : list ascii :=
  match s with
  | EmptyString => []
  | String c s' => c :: characters s'
  end.

(** The exceptions that writes to the input stream ended with. *)
Definition write_failure (e : event) : option pyexc :=
  match e with
  | EvCall (file_write _ _) (inl x) => Some x
  | _ => None
  end.

Definition write_failures (t : list event) : list pyexc := omap write_failure t.

(** The commands issued on a channel during a run, in order. *)
Definition issued_command (e : event) : option string :=
  match e with
  | EvCall (channel_exec_command _ command) _ => Some command
  | _ => None
  end.

Definition issued_commands (t : list event) : list string := omap issued_command t.

(** What [_exec_command_internal] makes of a command, given what [getcwd()]
    returned. *)
Definition command_in (escape_for_bash : string -> string) (cwd : option string)
    (command : string) : string :=
  match cwd with
  | Some folder => "cd " +:+ escape_for_bash folder +:+ " && " +:+ command
  | None => command
  end.

(** The reference environment with a command that has closed its input:
    every write to a channel file fails. *)
Definition broken_pipe : handler remote :=
  fun c w =>
    match c as c0 return (pyexc + result c0) * remote with
    | file_write _ _ => (inl (IOError (Some 32) "Broken pipe"), w)
    | c0 => paramiko c0 w
    end.

(** * Properties *)

(** ** Running composed programs *)

Lemma run_bind {W A B : Type} (h : handler W) (p : prog A) (f : A -> prog B) (w : W) :
  run h (bind p f) w =
  match run h p w with
  | (Returned a, w1, t1) =>
      let '(o, w2, t2) := run h (f a) w1 in (o, w2, t1 ++ t2)
  | (Raised e, w1, t1) => (Raised e, w1, t1)
  end.
Proof.
  revert w. induction p as [a|e|c k IH|lvl fmt args k IH]; intros w; simpl.
  - destruct (run h (f a) w) as [[o w2] t2]. reflexivity.
  - reflexivity.
  - destruct (h c w) as [r w1]. rewrite IH.
    destruct (run h (k r) w1) as [[[a|e] w2] t]; [|reflexivity].
    destruct (run h (f a) w2) as [[o w3] t3]. reflexivity.
  - rewrite IH.
    destruct (run h k w) as [[[a|e] w2] t]; [|reflexivity].
    destruct (run h (f a) w2) as [[o w3] t3]. reflexivity.
Qed.

Lemma run_try_except {W A : Type} (h : handler W) (p : prog A)
    (hd : pyexc -> prog A) (w : W) :
  run h (try_except p hd) w =
  match run h p w with
  | (Returned a, w1, t1) => (Returned a, w1, t1)
  | (Raised e, w1, t1) =>
      let '(o, w2, t2) := run h (hd e) w1 in (o, w2, t1 ++ t2)
  end.
Proof.
  revert w. induction p as [a|e|c k IH|lvl fmt args k IH]; intros w; simpl.
  - reflexivity.
  - destruct (run h (hd e) w) as [[o w2] t2]. reflexivity.
  - destruct (h c w) as [r w1]. rewrite IH.
    destruct (run h (k r) w1) as [[[a|e] w2] t]; [reflexivity|].
    destruct (run h (hd e) w2) as [[o w3] t3]. reflexivity.
  - rewrite IH.
    destruct (run h k w) as [[[a|e] w2] t]; [reflexivity|].
    destruct (run h (hd e) w2) as [[o w3] t3]. reflexivity.
Qed.

(** Membership in an explicit trace. *)
Ltac in_trace :=
  repeat first [apply list_elem_of_here | apply list_elem_of_further].

(** ** Precedence along a trace *)

Lemma done_beforeb_sound (P Q : event -> bool) (t : list event) (seen : bool) :
  done_beforeb P Q seen t = true ->
  forall t1 e t2, t = t1 ++ e :: t2 -> Q e = true ->
    seen = true \/ exists e', e' ∈ t1 /\ P e' = true /\ returned e' = true.
Proof.
  revert seen. induction t as [|a t IH]; intros seen Hb t1 e t2 Ht HQ.
  - destruct t1; discriminate.
  - simpl in Hb. apply andb_prop in Hb as [Himp Hrest].
    destruct t1 as [|b t1]; simpl in Ht; injection Ht as -> ->.
    + rewrite HQ in Himp. simpl in Himp. left. exact Himp.
    + destruct (IH _ Hrest t1 e t2 eq_refl HQ) as [Hseen|(e' & Hin & HP & Hret)].
      * apply orb_prop in Hseen as [Hseen|Hnow].
        -- left. exact Hseen.
        -- right. exists b. apply andb_prop in Hnow as [HP Hret].
           split; [apply list_elem_of_here|]. split; assumption.
      * right. exists e'. split; [apply list_elem_of_further; exact Hin|].
        split; assumption.
Qed.

Lemma done_beforeb_done_before (P Q : event -> bool) (t : list event) :
  done_beforeb P Q false t = true -> done_before P Q t.
Proof.
  intros Hb t1 e t2 Ht HQ.
  destruct (done_beforeb_sound P Q t false Hb t1 e t2 Ht HQ) as [Hf|H].
  - discriminate.
  - exact H.
Qed.

(** Events that are neither [P] nor [Q] can be put in front of a trace. *)
Lemma done_beforeb_skip (P Q : event -> bool) (t0 t : list event) (seen : bool) :
  Forall (fun e => P e = false /\ Q e = false) t0 ->
  done_beforeb P Q seen (t0 ++ t) = done_beforeb P Q seen t.
Proof.
  induction 1 as [|a t0 [HP HQ] _ IH]; simpl.
  - reflexivity.
  - rewrite HP, HQ. simpl. rewrite orb_false_r. exact IH.
Qed.

(** ** The command-execution protocol *)

Section Protocol.

Variable escape_for_bash : string -> string.
Context {W : Type}.
Variable h : handler W.

(** [_exec_command_internal] touches no stream of the channel; when it
    returns, it has opened a session and issued a command on it, and the
    three files it returns are those of that channel. *)
Lemma _exec_command_internal_run (self : SshTransport) (command : string)
    (combine_stderr : bool) (bufsize : Z) (w : W) :
  let r := run h (_exec_command_internal escape_for_bash self command
                    combine_stderr bufsize) w in
  Forall (fun e => is_stream_io e = false) (trace_of r) /\
  forall fin fout ferr ch, outcome_of r = Returned (fin, fout, ferr, ch) ->
    fin = mkChannelFile ch "wb" false bufsize /\
    fout = mkChannelFile ch "rb" false bufsize /\
    ferr = mkChannelFile ch "rb" true bufsize /\
    EvCall client_open_session (inr ch) ∈ trace_of r /\
    exists c, EvCall (channel_exec_command ch c) (inr tt) ∈ trace_of r.
Proof.
  destruct self as [[|] machine]; unfold _exec_command_internal, getcwd; simpl.
  2:{ split; [constructor|]. intros ? ? ? ? [=]. }
  destruct (h client_open_session w) as [[x|ch] w1]; simpl.
  { split; [repeat constructor|]. intros ? ? ? ? [=]. }
  destruct (h (channel_set_combine_stderr ch combine_stderr) w1) as [[x|[]] w2]; simpl.
  { split; [repeat constructor|]. intros ? ? ? ? [=]. }
  destruct (h sftp_getcwd w2) as [[x|[cwd|]] w3]; simpl.
  { split; [repeat constructor|]. intros ? ? ? ? [=]. }
  - destruct (h sftp_getcwd w3) as [[x|[folder|]] w4]; simpl.
    { split; [repeat constructor|]. intros ? ? ? ? [=]. }
    2:{ split; [repeat constructor|]. intros ? ? ? ? [=]. }
    destruct (h (channel_exec_command ch _) w4) as [[x|[]] w5]; simpl.
    { split; [repeat constructor|]. intros ? ? ? ? [=]. }
    destruct (h (channel_makefile ch "wb" bufsize) w5) as [[x|[]] w6]; simpl.
    { split; [repeat constructor|]. intros ? ? ? ? [=]. }
    destruct (h (channel_makefile ch "rb" bufsize) w6) as [[x|[]] w7]; simpl.
    { split; [repeat constructor|]. intros ? ? ? ? [=]. }
    destruct (h (channel_makefile_stderr ch "rb" bufsize) w7) as [[x|[]] w8]; simpl.
    { split; [repeat constructor|]. intros ? ? ? ? [=]. }
    split; [repeat constructor|]. intros ? ? ? ? [= <- <- <- <-].
    do 3 (split; [reflexivity|]). split; [in_trace|]. eexists. in_trace.
  - destruct (h (channel_exec_command ch _) w3) as [[x|[]] w5]; simpl.
    { split; [repeat constructor|]. intros ? ? ? ? [=]. }
    destruct (h (channel_makefile ch "wb" bufsize) w5) as [[x|[]] w6]; simpl.
    { split; [repeat constructor|]. intros ? ? ? ? [=]. }
    destruct (h (channel_makefile ch "rb" bufsize) w6) as [[x|[]] w7]; simpl.
    { split; [repeat constructor|]. intros ? ? ? ? [=]. }
    destruct (h (channel_makefile_stderr ch "rb" bufsize) w7) as [[x|[]] w8]; simpl.
    { split; [repeat constructor|]. intros ? ? ? ? [=]. }
    split; [repeat constructor|]. intros ? ? ? ? [= <- <- <- <-].
    do 3 (split; [reflexivity|]). split; [in_trace|]. eexists. in_trace.
Qed.

Lemma for_each_write_run (f : ChannelFile) (lines : list string) (w : W) :
  Forall (fun e => is_stdin_write e = true)
         (trace_of (run h (for_each lines (fun l => ext (file_write f l))) w)).
Proof.
  revert w. induction lines as [|l lines IH]; intros w; simpl.
  - constructor.
  - destruct (h (file_write f l) w) as [[x|[]] w1]; simpl.
    + repeat constructor.
    + specialize (IH w1).
      destruct (run h (for_each lines _) w1) as [[o w2] t]. simpl in *.
      constructor; [reflexivity|exact IH].
Qed.

Lemma write_stdin_run (f : ChannelFile) (x : pyobject) (w : W) :
  Forall (fun e => is_stdin_write e = true)
         (trace_of (run h (write_stdin f x) w)).
Proof.
  unfold write_stdin. rewrite run_try_except.
  set (fl := match x with PyStr s => PyStringIO s | _ => x end).
  assert (Hlines : (exists lines, readlines fl = Ret lines) \/
                   (exists m, readlines fl = Raise (AttributeError m))).
  { destruct x; simpl; eauto. }
  destruct Hlines as [[lines ->]|[m ->]]; simpl.
  - pose proof (for_each_write_run f lines w) as Hw.
    destruct (run h (for_each lines _) w) as [[[[]|e] w1] t]; simpl in *.
    + exact Hw.
    + destruct (is_AttributeError e); simpl; rewrite app_nil_r; exact Hw.
  - constructor.
Qed.

(** Every run of [exec_command_wait] is made of the requests that set the
    command up, then the writes to the input stream, then the draining
    steps, which it goes through in order as far as paramiko lets it. *)
Lemma exec_command_wait_run (self : SshTransport) (command : string)
    (stdin : option pyobject) (combine_stderr : bool) (bufsize : Z) (w : W) :
  let r := run h (exec_command_wait escape_for_bash self command stdin
                    combine_stderr bufsize) w in
  exists ch t_setup t_write t_drain,
    trace_of r = t_setup ++ t_write ++ t_drain /\
    Forall (fun e => is_stream_io e = false) t_setup /\
    Forall (fun e => is_stdin_write e = true) t_write /\
    (stdin = None -> t_write = []) /\
    ((t_drain = [] /\ exists x, outcome_of r = Raised x) \/
     drained ch (mkChannelFile ch "wb" false bufsize)
             (mkChannelFile ch "rb" false bufsize)
             (mkChannelFile ch "rb" true bufsize) (outcome_of r) t_drain).
Proof.
  unfold exec_command_wait. rewrite run_bind.
  pose proof (_exec_command_internal_run self command combine_stderr bufsize w)
    as [Hsetup Hfiles].
  destruct (run h (_exec_command_internal _ _ _ _ _) w)
    as [[[[[[fin fout] ferr] ch]|x] w1] t1]; simpl in Hsetup, Hfiles.
  2:{ exists 0%nat, t1, [], []. simpl. rewrite app_nil_r.
      repeat split; try constructor; eauto. }
  destruct (Hfiles _ _ _ _ eq_refl) as (-> & -> & -> & _). clear Hfiles.
  rewrite run_bind.
  assert (Hwrite : Forall (fun e => is_stdin_write e = true)
            (trace_of (run h (match stdin with
                              | Some x => write_stdin (mkChannelFile ch "wb" false bufsize) x
                              | None => Ret tt
                              end) w1)) /\
            (stdin = None ->
             trace_of (run h (match stdin with
                              | Some x => write_stdin (mkChannelFile ch "wb" false bufsize) x
                              | None => Ret tt
                              end) w1) = [])).
  { destruct stdin as [x|]; simpl.
    - split; [apply write_stdin_run|discriminate].
    - split; [constructor|reflexivity]. }
  destruct (run h (match stdin with Some _ => _ | None => _ end) w1)
    as [[[[]|x] w2] t2]; simpl in Hwrite; destruct Hwrite as [Hwrite Hnone].
  2:{ exists ch, t1, t2, []. simpl. rewrite app_nil_r.
      repeat split; eauto. }
  exists ch, t1, t2. simpl.
  destruct (h (file_flush _) w2) as [[x|[]] w3]; simpl.
  { eexists. repeat split; eauto. right. constructor. }
  destruct (h (channel_shutdown_write ch) w3) as [[x|[]] w4]; simpl.
  { eexists. repeat split; eauto. right. apply drained_shutdown_raised. }
  destruct (h (file_read _ None) w4) as [[x|out] w5]; simpl.
  { eexists. repeat split; eauto. right. apply drained_stdout_raised. }
  destruct (h (channel_recv_exit_status ch) w5) as [[x|retval] w6]; simpl.
  { eexists. repeat split; eauto. right. apply drained_status_raised. }
  destruct (h (file_read _ None) w6) as [[x|err] w7]; simpl.
  { eexists. repeat split; eauto. right. apply drained_stderr_raised. }
  eexists. repeat split; eauto. right. apply drained_completed.
Qed.

(** The set-up requests and the writes do not count for the order of two
    draining steps. *)
Lemma done_beforeb_drain (P Q : event -> bool) (t_setup t_write t_drain : list event) :
  (forall e, is_stream_io e = false -> P e = false /\ Q e = false) ->
  (forall e, is_stdin_write e = true -> P e = false /\ Q e = false) ->
  Forall (fun e => is_stream_io e = false) t_setup ->
  Forall (fun e => is_stdin_write e = true) t_write ->
  done_beforeb P Q false (t_setup ++ t_write ++ t_drain)
  = done_beforeb P Q false t_drain.
Proof.
  intros Hs Hw Hsetup Hwrite.
  rewrite done_beforeb_skip.
  - apply done_beforeb_skip. eapply Forall_impl; [exact Hwrite|exact Hw].
  - eapply Forall_impl; [exact Hsetup|exact Hs].
Qed.

Lemma drain_step_is_stream_io (e : event) :
  is_stream_io e = false -> is_drain_step e = false.
Proof.
  destruct e as [[] r|]; cbv; congruence.
Qed.

Lemma stdin_write_not_drain_step (e : event) :
  is_stdin_write e = true -> is_drain_step e = false.
Proof.
  destruct e as [[] r|]; cbv; congruence.
Qed.

(** Decides the side conditions of [done_beforeb_drain]. *)
Ltac by_request :=
  let e := fresh "e" in
  let He := fresh "He" in
  intros e He; destruct e as [[] ?|]; cbv in He; try discriminate He;
  split; reflexivity.

(** C1: in every run of [exec_command_wait], whatever paramiko answers, the
    exit status is requested only after [stdout.read()] (the output stream,
    read with no size limit, that is to exhaustion) has returned, and
    [stderr.read()] is called only after [recv_exit_status()] has returned;
    and a run that returns [(retval, output_text, stderr_text)] ends with
    exactly these three steps, in this order and on the channel of the
    command, with no other draining step before them. *)
Theorem exec_command_wait_drains_in_order (self : SshTransport) (command : string)
    (stdin : option pyobject) (combine_stderr : bool) (bufsize : Z) (w : W) :
  let r := run h (exec_command_wait escape_for_bash self command stdin
                    combine_stderr bufsize) w in
  done_before reads_stdout requests_exit_status (trace_of r) /\
  done_before requests_exit_status reads_stderr (trace_of r) /\
  forall retval out err, outcome_of r = Returned (retval, out, err) ->
    exists ch t0,
      trace_of r =
        t0 ++ [EvCall (file_read (mkChannelFile ch "rb" false bufsize) None) (inr out);
               EvCall (channel_recv_exit_status ch) (inr retval);
               EvCall (file_read (mkChannelFile ch "rb" true bufsize) None) (inr err)] /\
      Forall (fun e => is_drain_step e = false) t0.
Proof.
  intros r.
  destruct (exec_command_wait_run self command stdin combine_stderr bufsize w)
    as (ch & t_setup & t_write & t_drain & Ht & Hsetup & Hwrite & _ & Hdrain).
  fold r in Ht, Hdrain. rewrite Ht.
  split; [|split].
  - apply done_beforeb_done_before.
    rewrite done_beforeb_drain; [|by_request|by_request|assumption|assumption].
    destruct Hdrain as [[-> _]|Hd]; [reflexivity|].
    inversion Hd; reflexivity.
  - apply done_beforeb_done_before.
    rewrite done_beforeb_drain; [|by_request|by_request|assumption|assumption].
    destruct Hdrain as [[-> _]|Hd]; [reflexivity|].
    inversion Hd; reflexivity.
  - intros retval out err Ho.
    destruct Hdrain as [[_ [x Hx]]|Hd]; [congruence|].
    rewrite Ho in Hd. inversion Hd; subst.
    exists ch, (t_setup ++ t_write ++
                [EvCall (file_flush (mkChannelFile ch "wb" false bufsize)) (inr tt);
                 EvCall (channel_shutdown_write ch) (inr tt)]).
    split.
    + rewrite <- !app_assoc. reflexivity.
    + rewrite !Forall_app. split; [|split].
      * eapply Forall_impl; [exact Hsetup|exact drain_step_is_stream_io].
      * eapply Forall_impl; [exact Hwrite|exact stdin_write_not_drain_step].
      * repeat constructor.
Qed.

(** C10: in every run of [exec_command_wait], whatever [stdin] is ([None]
    included) and whatever paramiko answers, [shutdown_write()] is called only
    after the flush of the input stream has returned, and [stdout.read()]
    only after [shutdown_write()] has returned; a run that returns has
    flushed the input stream and shut its write side down, and with
    [stdin = None] it has done so without any other traffic on the streams
    of the channel before. *)
Theorem exec_command_wait_closes_stdin (self : SshTransport) (command : string)
    (stdin : option pyobject) (combine_stderr : bool) (bufsize : Z) (w : W) :
  let r := run h (exec_command_wait escape_for_bash self command stdin
                    combine_stderr bufsize) w in
  done_before flushes_stdin shuts_down_write (trace_of r) /\
  done_before shuts_down_write reads_stdout (trace_of r) /\
  forall x, outcome_of r = Returned x ->
    exists ch t0 t1,
      trace_of r =
        t0 ++ [EvCall (file_flush (mkChannelFile ch "wb" false bufsize)) (inr tt);
               EvCall (channel_shutdown_write ch) (inr tt)] ++ t1 /\
      Forall (fun e => is_stream_io e = false \/ is_stdin_write e = true) t0 /\
      (stdin = None -> Forall (fun e => is_stream_io e = false) t0).
Proof.
  intros r.
  destruct (exec_command_wait_run self command stdin combine_stderr bufsize w)
    as (ch & t_setup & t_write & t_drain & Ht & Hsetup & Hwrite & Hnone & Hdrain).
  fold r in Ht, Hdrain. rewrite Ht.
  split; [|split].
  - apply done_beforeb_done_before.
    rewrite done_beforeb_drain; [|by_request|by_request|assumption|assumption].
    destruct Hdrain as [[-> _]|Hd]; [reflexivity|].
    inversion Hd; reflexivity.
  - apply done_beforeb_done_before.
    rewrite done_beforeb_drain; [|by_request|by_request|assumption|assumption].
    destruct Hdrain as [[-> _]|Hd]; [reflexivity|].
    inversion Hd; reflexivity.
  - intros x Ho.
    destruct Hdrain as [[_ [x' Hx]]|Hd]; [congruence|].
    rewrite Ho in Hd. inversion Hd; subst.
    exists ch, (t_setup ++ t_write). eexists.
    split; [rewrite <- app_assoc; reflexivity|]. split.
    + rewrite Forall_app. split.
      * eapply Forall_impl; [exact Hsetup|]. intros e He. left. exact He.
      * eapply Forall_impl; [exact Hwrite|]. intros e He. right. exact He.
    + intros Hn. rewrite (Hnone Hn), app_nil_r. exact Hsetup.
Qed.

(** C2 (amended): whatever paramiko answers, a command that
    [_exec_command_internal] issues on the channel is
    [cd <escaped folder> && <command>] when the last [getcwd()] returned the
    folder, and the command itself when [getcwd()] returned [None]; the
    folder goes through [escape_for_bash], the command is inserted as it was
    given. *)
Theorem _exec_command_internal_issues (self : SshTransport) (command : string)
    (combine_stderr : bool) (bufsize : Z) (w : W) (ch : Channel) (c : string) :
  let r := run h (_exec_command_internal escape_for_bash self command
                    combine_stderr bufsize) w in
  channel_exec_command ch c ∈ requests (trace_of r) ->
  exists cwd,
    last (getcwd_answers (trace_of r)) = Some cwd /\
    c = match cwd with
        | Some folder => "cd " +:+ escape_for_bash folder +:+ " && " +:+ command
        | None => command
        end.
Proof.
  destruct self as [[|] machine]; unfold _exec_command_internal, getcwd; simpl.
  2:{ intros Hin. decompose_list_elem_of; simplify_eq. }
  destruct (h client_open_session w) as [[x|ch'] w1]; simpl.
  { intros Hin. decompose_list_elem_of; simplify_eq. }
  destruct (h (channel_set_combine_stderr ch' combine_stderr) w1) as [[x|[]] w2]; simpl.
  { intros Hin. decompose_list_elem_of; simplify_eq. }
  destruct (h sftp_getcwd w2) as [[x|[cwd|]] w3]; simpl.
  { intros Hin. decompose_list_elem_of; simplify_eq. }
  - destruct (h sftp_getcwd w3) as [[x|[folder|]] w4]; simpl.
    { intros Hin. decompose_list_elem_of; simplify_eq. }
    2:{ intros Hin. decompose_list_elem_of; simplify_eq. }
    destruct (h (channel_exec_command ch' _) w4) as [[x|[]] w5]; simpl.
    { intros Hin. decompose_list_elem_of; simplify_eq. exists (Some folder). split; reflexivity. }
    destruct (h (channel_makefile ch' "wb" bufsize) w5) as [[x|[]] w6]; simpl.
    { intros Hin. decompose_list_elem_of; simplify_eq. exists (Some folder). split; reflexivity. }
    destruct (h (channel_makefile ch' "rb" bufsize) w6) as [[x|[]] w7]; simpl.
    { intros Hin. decompose_list_elem_of; simplify_eq. exists (Some folder). split; reflexivity. }
    destruct (h (channel_makefile_stderr ch' "rb" bufsize) w7) as [[x|[]] w8]; simpl;
      intros Hin; decompose_list_elem_of; simplify_eq; exists (Some folder); split; reflexivity.
  - destruct (h (channel_exec_command ch' _) w3) as [[x|[]] w5]; simpl.
    { intros Hin. decompose_list_elem_of; simplify_eq. exists None. split; reflexivity. }
    destruct (h (channel_makefile ch' "wb" bufsize) w5) as [[x|[]] w6]; simpl.
    { intros Hin. decompose_list_elem_of; simplify_eq. exists None. split; reflexivity. }
    destruct (h (channel_makefile ch' "rb" bufsize) w6) as [[x|[]] w7]; simpl.
    { intros Hin. decompose_list_elem_of; simplify_eq. exists None. split; reflexivity. }
    destruct (h (channel_makefile_stderr ch' "rb" bufsize) w7) as [[x|[]] w8]; simpl;
      intros Hin; decompose_list_elem_of; simplify_eq; exists None; split; reflexivity.
Qed.

(** C4 (amended): when [stdin] is an object that is neither a string nor
    file-like, [exec_command_wait] first goes through all of
    [_exec_command_internal]; if that raises, so does the call; if it
    returns, the session has been opened and the command issued on it, and
    the call then raises [ValueError] with nothing written to, flushed on or
    read from the streams of the channel. *)
Theorem exec_command_wait_rejects_stdin (self : SshTransport) (command : string)
    (x : pyobject) (combine_stderr : bool) (bufsize : Z) (w : W) :
  is_basestring x = false -> is_filelike x = false ->
  let r := run h (exec_command_wait escape_for_bash self command (Some x)
                    combine_stderr bufsize) w in
  let r0 := run h (_exec_command_internal escape_for_bash self command
                     combine_stderr bufsize) w in
  trace_of r = trace_of r0 /\
  world_of r = world_of r0 /\
  Forall (fun e => is_stream_io e = false) (trace_of r) /\
  (forall e, outcome_of r0 = Raised e -> outcome_of r = Raised e) /\
  (forall fin fout ferr ch, outcome_of r0 = Returned (fin, fout, ferr, ch) ->
     outcome_of r =
       Raised (ValueError "stdin can only be either a string of a file-like object!") /\
     EvCall client_open_session (inr ch) ∈ trace_of r /\
     exists c, EvCall (channel_exec_command ch c) (inr tt) ∈ trace_of r).
Proof.
  intros Hstr Hfile r r0.
  pose proof (_exec_command_internal_run self command combine_stderr bufsize w)
    as [Hsetup Hfiles].
  fold r0 in Hsetup, Hfiles.
  assert (Hr : r = match r0 with
                   | (Returned _, w1, t1) =>
                       (Raised (ValueError
                          "stdin can only be either a string of a file-like object!"),
                        w1, t1)
                   | (Raised e, w1, t1) => (Raised e, w1, t1)
                   end).
  { subst r r0. unfold exec_command_wait. rewrite run_bind.
    destruct (run h (_exec_command_internal _ _ _ _ _) w)
      as [[[[[[fin fout] ferr] ch]|e] w1] t1]; [|reflexivity].
    destruct x; try discriminate. simpl. rewrite app_nil_r. reflexivity. }
  destruct r0 as [[[[[[fin fout] ferr] ch]|e] w1] t1]; rewrite Hr;
    unfold trace_of, world_of, outcome_of in *; simpl in *.
  - split; [reflexivity|]. split; [reflexivity|]. split; [exact Hsetup|].
    split; [discriminate|].
    intros fin' fout' ferr' ch' Ho.
    destruct (Hfiles _ _ _ _ Ho) as (_ & _ & _ & Hopen & Hexec).
    split; [reflexivity|]. split; assumption.
  - split; [reflexivity|]. split; [reflexivity|]. split; [exact Hsetup|].
    split; [intros e' [= ->]; reflexivity|discriminate].
Qed.

End Protocol.

(** ** The session and the file operations *)

Section Filesystem.

Variable escape_for_bash : string -> string.
Context {W : Type}.
Variable h : handler W.

Lemma __init___not_open (machine : string) : _is_open (__init__ machine) = false.
Proof. reflexivity. Qed.

Lemma __exit___closes (self self' : SshTransport) (w : W) :
  outcome_of (run h (__exit__ self) w) = Returned self' -> _is_open self' = false.
Proof.
  unfold __exit__. simpl.
  destruct (h sftp_close w) as [[x|[]] w1]; simpl; [discriminate|].
  destruct (h client_close w1) as [[x|[]] w2]; simpl; [discriminate|].
  intros [= <-]. reflexivity.
Qed.

Lemma __enter___opens (self self' : SshTransport) (w : W) :
  outcome_of (run h (__enter__ self) w) = Returned self' -> _is_open self' = true.
Proof.
  unfold __enter__. simpl.
  destruct (h (client_connect _) w) as [[x|[]] w1]; simpl; [discriminate|].
  destruct (h client_open_sftp w1) as [[x|[]] w2]; simpl; [discriminate|].
  destruct (h (sftp_normalize ".") w2) as [[x|here] w3]; simpl; [discriminate|].
  destruct (h (sftp_chdir here) w3) as [[x|[]] w4]; simpl; [discriminate|].
  intros [= <-]. reflexivity.
Qed.

Lemma run_except_no_such_file (x : pyexc) (w : W) :
  run h (except_no_such_file x) w =
  (if bool_decide (getattr_errno x = Some 2) then Returned false else Raised x, w, []).
Proof.
  unfold except_no_such_file.
  destruct x; simpl; try reflexivity.
  destruct (bool_decide (errno = Some 2)); reflexivity.
Qed.

(** C5 (amended): on an open transport [mkdir] makes one request,
    [sftp.mkdir(path)]; it returns when the request returns, raises
    [OSError] with the message of the failure whenever the request raises an
    [IOError], whatever its cause, and lets any other exception through. *)
Theorem mkdir_raises_OSError (self : SshTransport) (path : string) (w : W) :
  _is_open self = true ->
  let a := h (sftp_mkdir path) w in
  run h (mkdir self path) w =
  (match a.1 with
   | inr _ => Returned tt
   | inl (IOError _ message) => Raised (OSError message)
   | inl e => Raised e
   end, a.2, [EvCall (sftp_mkdir path) a.1]).
Proof.
  destruct self as [[|] machine]; simpl; [intros _|discriminate].
  unfold mkdir. simpl.
  destruct (h (sftp_mkdir path) w) as [[e|[]] w1]; simpl; [|reflexivity].
  destruct e; reflexivity.
Qed.

(** C6 (amended): a transport that is not open makes no request to
    paramiko, whichever method is called.  The call raises
    [TransportInternalError], except where the method tests its argument
    first and the argument does not pass: [isdir] and [isfile] of the empty
    path return [False], [chmod] of the empty path raises [IOError], and
    [put] or [get] with a local path that is not absolute and [copy] with an
    empty source or destination raise [ValueError].  The last part of the
    statement gives the outcome method by method. *)
Theorem closed_transport_makes_no_request (self : SshTransport) (m : method) (w : W) :
  _is_open self = false ->
  let r := run h (invoke escape_for_bash self m) w in
  trace_of r = [] /\
  world_of r = w /\
  (rejects_argument m = false ->
     exists msg, outcome_of r = Raised (TransportInternalError msg)) /\
  (rejects_argument m = true ->
     outcome_of r = Returned (VBool false) \/
     (exists msg, outcome_of r = Raised (IOError None msg)) \/
     (exists msg, outcome_of r = Raised (ValueError msg))) /\
  outcome_of r =
    match m with
    | call_isdir path | call_isfile path =>
        if py_not path then Returned (VBool false)
        else Raised (TransportInternalError
               "Error, sftp method called for SshTransport without opening the channel first")
    | call_chmod path _ =>
        if py_not path then Raised (IOError None "Input path is an empty argument.")
        else Raised (TransportInternalError
               "Error, sftp method called for SshTransport without opening the channel first")
    | call_put localpath _ _ | call_get _ localpath _ =>
        if isabs localpath
        then Raised (TransportInternalError
               "Error, sftp method called for SshTransport without opening the channel first")
        else Raised (ValueError "The localpath must be an absolute path")
    | call_copy src dst _ =>
        if py_not src
        then Raised (ValueError
               "Input to copy() must be a non empty string. Found instead  as remotesource")
        else if py_not dst
        then Raised (ValueError
               "Input to copy() must be a non empty string. Found instead  as remotedestination")
        else Raised (TransportInternalError
               "Error, ssh method called for SshTransport without opening the channel first")
    | call__exec_command_internal _ _ _ | call_exec_command_wait _ _ _ _ =>
        Raised (TransportInternalError
          "Error, ssh method called for SshTransport without opening the channel first")
    | call_chdir _ | call_normalize _ | call_getcwd | call_mkdir _ | call_rmdir _
    | call_get_attribute _ | call_listdir _ | call_remove _ =>
        Raised (TransportInternalError
          "Error, sftp method called for SshTransport without opening the channel first")
    end.
Proof.
  destruct self as [[|] machine]; simpl; [discriminate|intros _].
  destruct m as [[p|]|p| |p|p|p|p md|l r cb|r l cb|p|src dst deref|p|p|p|c cs bs|c si cs bs];
    unfold invoke, chdir, normalize, getcwd, mkdir, rmdir, isdir, chmod, put, get,
      get_attribute, copy, listdir, remove, isfile, exec_command_wait,
      _exec_command_internal; simpl;
    try (split; [reflexivity|]; split; [reflexivity|]; split;
         [intros _; eexists; reflexivity|split; [discriminate|reflexivity]]).
  - destruct (py_not p); simpl;
      (split; [reflexivity|]; split; [reflexivity|]; split; [|split; [|reflexivity]]);
      try discriminate; eauto.
  - destruct (py_not p); simpl;
      (split; [reflexivity|]; split; [reflexivity|]; split; [|split; [|reflexivity]]);
      try discriminate; eauto.
  - destruct (isabs l); simpl;
      (split; [reflexivity|]; split; [reflexivity|]; split; [|split; [|reflexivity]]);
      try discriminate; eauto.
  - destruct (isabs l); simpl;
      (split; [reflexivity|]; split; [reflexivity|]; split; [|split; [|reflexivity]]);
      try discriminate; eauto.
  - destruct src as [|c src]; simpl; [|destruct dst as [|c' dst]; simpl];
      (split; [reflexivity|]; split; [reflexivity|]; split; [|split; [|reflexivity]]);
      try discriminate; eauto.
  - destruct (py_not p); simpl;
      (split; [reflexivity|]; split; [reflexivity|]; split; [|split; [|reflexivity]]);
      try discriminate; eauto.
Qed.

(** C7: [isdir] and [isfile] return [False] on the empty path, on any
    transport and with no request made.  On another path and an open
    transport they ask paramiko only about that path; when a request fails
    with an [IOError] whose [errno] is 2 they return [False], when it fails
    with anything else they raise that failure again, and when nothing fails
    they have called [stat] on the path and answer with the directory or
    regular-file test of the mode that [stat] returned. *)
Theorem isdir_isfile_check (self : SshTransport) (path : string) (w : W) :
  run h (isdir self "") w = (Returned false, w, []) /\
  run h (isfile self "") w = (Returned false, w, []) /\
  (path <> "" -> _is_open self = true ->
   existence_check path (fun m => Z.eqb (S_IFMT m) 16384) (run h (isdir self path) w) /\
   existence_check path (fun m => Z.eqb (S_IFMT m) 32768) (run h (isfile self path) w)).
Proof.
  split; [reflexivity|]. split; [reflexivity|].
  intros Hpath Hopen.
  assert (Hnot : py_not path = false) by (destruct path; [congruence|reflexivity]).
  destruct self as [[|] machine]; simpl in Hopen; [clear Hopen|discriminate].
  unfold isdir, isfile, existence_check. rewrite Hnot, !run_try_except. simpl.
  split.
  - destruct (h (sftp_stat path) w) as [[x|a] w1]; simpl.
    + rewrite run_except_no_such_file.
      destruct (bool_decide (getattr_errno x = Some 2)) eqn:E;
        unfold trace_of, outcome_of; simpl.
      * split; [intros c Hc; decompose_list_elem_of; auto|].
        split; [|discriminate].
        intros x' Hx'. apply list_elem_of_singleton in Hx' as ->. rewrite E. reflexivity.
      * split; [intros c Hc; decompose_list_elem_of; auto|].
        split; [|discriminate].
        intros x' Hx'. apply list_elem_of_singleton in Hx' as ->. rewrite E. reflexivity.
    + destruct (st_mode a) as [md|] eqn:Emode; unfold trace_of, outcome_of; simpl.
      * split; [intros c Hc; decompose_list_elem_of; auto|].
        split; [intros x' Hx'; decompose_list_elem_of|].
        intros _. split; [in_trace|]. exists a. rewrite Emode. split; reflexivity.
      * split; [intros c Hc; decompose_list_elem_of; auto|].
        split; [intros x' Hx'; decompose_list_elem_of|].
        intros _. split; [in_trace|]. exists a. rewrite Emode. split; reflexivity.
  - destruct (h (sftp_normalize path) w) as [[x|n] w1]; simpl.
    { rewrite run_except_no_such_file.
      destruct (bool_decide (getattr_errno x = Some 2)) eqn:E;
        unfold trace_of, outcome_of; simpl;
        (split; [intros c Hc; decompose_list_elem_of; auto|]);
        (split; [|discriminate]);
        intros x' Hx'; apply list_elem_of_singleton in Hx' as ->; rewrite E; reflexivity. }
    destruct (h (sftp_stat path) w1) as [[x|a1] w2]; simpl.
    { rewrite run_except_no_such_file.
      destruct (bool_decide (getattr_errno x = Some 2)) eqn:E;
        unfold trace_of, outcome_of; simpl;
        (split; [intros c Hc; decompose_list_elem_of; auto|]);
        (split; [|discriminate]);
        intros x' Hx'; apply list_elem_of_singleton in Hx' as ->; rewrite E; reflexivity. }
    destruct (h (sftp_stat path) w2) as [[x|a2] w3]; simpl.
    { rewrite run_except_no_such_file.
      destruct (bool_decide (getattr_errno x = Some 2)) eqn:E;
        unfold trace_of, outcome_of; simpl;
        (split; [intros c Hc; decompose_list_elem_of; auto|]);
        (split; [|discriminate]);
        intros x' Hx'; apply list_elem_of_singleton in Hx' as ->; rewrite E; reflexivity. }
    destruct (h (sftp_stat path) w3) as [[x|a3] w4]; simpl.
    { rewrite run_except_no_such_file.
      destruct (bool_decide (getattr_errno x = Some 2)) eqn:E;
        unfold trace_of, outcome_of; simpl;
        (split; [intros c Hc; decompose_list_elem_of; auto|]);
        (split; [|discriminate]);
        intros x' Hx'; apply list_elem_of_singleton in Hx' as ->; rewrite E; reflexivity. }
    destruct (st_mode a3) as [md|] eqn:Emode; unfold trace_of, outcome_of; simpl;
      (split; [intros c Hc; decompose_list_elem_of; auto|]);
      (split; [intros x' Hx'; decompose_list_elem_of|]);
      intros _; (split; [in_trace|]); exists a3; rewrite Emode; split; reflexivity.
Qed.

(** C8 (amended): with a source and a destination that are not empty,
    [copy] runs [cp] through [exec_command_wait]; if that raises, so does
    [copy]; if it returns the exit code 0, [copy] returns [True] and only
    logs a warning when the error output is not blank; if it returns another
    exit code, [copy] logs the code, the output and the error output and
    raises an [IOError] whose message holds the exit code alone. *)
Theorem copy_outcome (self : SshTransport) (src dst : string) (dereference : bool)
    (w : W) :
  src <> "" -> dst <> "" ->
  let command :=
    "cp" +:+ " " +:+ (if dereference then "-r -f -L" else "-r -f") +:+ " "
         +:+ escape_for_bash src +:+ " " +:+ escape_for_bash dst in
  run h (copy escape_for_bash self src dst dereference) w =
  match run h (exec_command_wait escape_for_bash self command None false (-1)) w with
  | (Returned (retval, stdout, stderr), w1, t1) =>
      if Z.eqb retval 0
      then (Returned true, w1,
            t1 ++ if negb (py_not (strip stderr))
                  then [EvLog WARNING "There was nonempty stderr in the cp command: {}"
                          [LStr stderr]]
                  else [])
      else (Raised (IOError None
                      ("Error while executing cp. Exit code: " +:+ pretty retval)),
            w1,
            t1 ++ [EvLog ERROR
                     "Problem executing cp. Exit code: {}, stdout: '{}', stderr: '{}'"
                     [LInt retval; LStr stdout; LStr stderr]])
  | (Raised e, w1, t1) => (Raised e, w1, t1)
  end.
Proof.
  intros Hsrc Hdst.
  assert (Hs : py_not src = false) by (destruct src; [congruence|reflexivity]).
  assert (Hd : py_not dst = false) by (destruct dst; [congruence|reflexivity]).
  unfold copy. cbv zeta. rewrite Hs, Hd, run_bind.
  destruct dereference; cbn [String.append];
    destruct (run h (exec_command_wait _ _ _ _ _ _) w)
      as [[[[[retval out] err]|e] w1] t1]; try reflexivity;
    destruct (Z.eqb retval 0); simpl;
    try destruct (py_not (strip err)); reflexivity.
Qed.

Lemma FileAttribute_setitem_valid (d : FileAttribute) (key : string) (v : option Z) :
  key ∈ _valid_fields -> FileAttribute_setitem d key v = Ret (<[key := v]> d).
Proof.
  intros Hkey. unfold FileAttribute_setitem.
  rewrite bool_decide_eq_true_2; [reflexivity|exact Hkey].
Qed.

Lemma FileAttribute_setitem_invalid (d : FileAttribute) (key : string) (v : option Z) :
  key ∉ _valid_fields -> FileAttribute_setitem d key v = Raise (KeyError key).
Proof.
  intros Hkey. unfold FileAttribute_setitem.
  rewrite bool_decide_eq_false_2; [reflexivity|exact Hkey].
Qed.

(** C9: on an open transport, when [lstat] returns, [get_attribute] returns
    a [FileAttribute] whose fields are exactly the six of [_valid_fields],
    each with the value of the attribute of that name in what [lstat]
    returned, whatever the other attributes are; on the record returned,
    reading or assigning any other name is an error. *)
Theorem get_attribute_fields (self : SshTransport) (path : string) (w w1 : W)
    (a : SFTPAttributes) :
  _is_open self = true ->
  h (sftp_lstat path) w = (inr a, w1) ->
  exists d : FileAttribute,
    run h (get_attribute self path) w
    = (Returned d, w1, [EvCall (sftp_lstat path) (inr a)]) /\
    dom d = list_to_set _valid_fields /\
    d !! "st_size" = Some (st_size a) /\
    d !! "st_uid" = Some (st_uid a) /\
    d !! "st_gid" = Some (st_gid a) /\
    d !! "st_mode" = Some (st_mode a) /\
    d !! "st_atime" = Some (st_atime a) /\
    d !! "st_mtime" = Some (st_mtime a) /\
    forall key, key ∉ _valid_fields ->
      d !! key = None /\
      FileAttribute_getattr d key = Raise (AttributeError key) /\
      forall v, FileAttribute_setitem d key v = Raise (KeyError key).
Proof.
  clear escape_for_bash. intros Hopen Hlstat.
  destruct self as [[|] machine]; simpl in Hopen; [clear Hopen|discriminate].
  unfold get_attribute. simpl. rewrite Hlstat. simpl.
  rewrite ?FileAttribute_setitem_valid by (unfold _valid_fields; in_trace).
  simpl.
  eexists. split; [reflexivity|]. unfold FileAttribute_new.
  split.
  { rewrite !dom_insert_L, dom_empty_L. apply set_eq. intros k.
    rewrite !elem_of_union, !elem_of_singleton, !elem_of_empty. tauto. }
  do 6 (split; [simplify_map_eq; reflexivity|]).
  intros key Hkey.
  assert (Hnone : (<["st_mtime" := st_mtime a]>
                    (<["st_atime" := st_atime a]>
                      (<["st_mode" := st_mode a]>
                        (<["st_gid" := st_gid a]>
                          (<["st_uid" := st_uid a]>
                            (<["st_size" := st_size a]> (∅ : FileAttribute)))))))
                  !! key = None).
  { unfold _valid_fields in Hkey.
    rewrite !lookup_insert_ne by (intros <-; apply Hkey; in_trace).
    apply lookup_empty. }
  split; [exact Hnone|]. split.
  - unfold FileAttribute_getattr. rewrite Hnone. reflexivity.
  - intros v. apply FileAttribute_setitem_invalid. exact Hkey.
Qed.

End Filesystem.

(** ** The methods on the reference host *)

(** In any environment [chdir] has the SFTP client change directory first
    and checks the directory only when that has returned: the state the
    check fails in is the state after the change. *)
Lemma chdir_checks_after_change {W : Type} (h : handler W) (self : SshTransport)
    (path : string) (w : W) :
  _is_open self = true ->
  let a := h (sftp_chdir path) w in
  let b := h (sftp_stat ".") a.2 in
  run h (chdir self (Some path)) w =
  match a.1 with
  | inl e => (Raised e, a.2, [EvCall (sftp_chdir path) a.1])
  | inr _ =>
      (match b.1 with inl e => Raised e | inr _ => Returned tt end, b.2,
       [EvCall (sftp_chdir path) a.1; EvCall (sftp_stat ".") b.1])
  end.
Proof.
  destruct self as [[|] machine]; simpl; [intros _|discriminate].
  unfold chdir. simpl.
  destruct (h (sftp_chdir path) w) as [[e|[]] w1]; simpl; [reflexivity|].
  destruct (h (sftp_stat ".") w1) as [[e|a] w2]; reflexivity.
Qed.

(** C3: on the reference host, [chdir] to a directory that exists but
    cannot be searched raises the [IOError] of the read check, and leaves the
    working directory of the SFTP client changed: [getcwd()], which returned
    [/home/user] before the call, returns [/secret] after it. *)
Theorem chdir_unreadable_changes_cwd :
  outcome_of (run paramiko (getcwd opened) host) = Returned (Some "/home/user") /\
  run paramiko (chdir opened (Some "/secret")) host =
    (Raised (IOError (Some 13) "Permission denied"),
     set_cwd host (Some "/secret"),
     [EvCall (sftp_chdir "/secret") (inr tt);
      EvCall (sftp_stat ".") (inl (IOError (Some 13) "Permission denied"))]) /\
  outcome_of (run paramiko (getcwd opened) (set_cwd host (Some "/secret")))
  = Returned (Some "/secret").
Proof.
  split; [reflexivity|]. split; [vm_compute; reflexivity|reflexivity].
Qed.

(** C2, as stated, fails: with the working directory [/home/user],
    [_exec_command_internal] issues [cd '/home/user' && ls -l]; the command
    is not escaped. *)
Lemma _exec_command_internal_command_not_escaped :
  let t := trace_of (run paramiko
                       (_exec_command_internal quote_for_bash opened "ls -l" false (-1))
                       host) in
  getcwd_answers t = [Some "/home/user"; Some "/home/user"] /\
  requests t !! 4%nat
  = Some (channel_exec_command 0%nat "cd '/home/user' && ls -l") /\
  "cd '/home/user' && ls -l"
  <> "cd " +:+ quote_for_bash "/home/user" +:+ " && " +:+ quote_for_bash "ls -l".
Proof.
  split; [reflexivity|]. split; [reflexivity|]. vm_compute. discriminate.
Qed.

(** C4, as stated, fails: with a [stdin] that is neither a string nor
    file-like, [ValueError] is raised after the session has been opened and
    the command issued. *)
Lemma exec_command_wait_invalid_stdin_after_exec :
  let r := run paramiko
             (exec_command_wait quote_for_bash opened "cat" (Some PyOther) false (-1))
             host in
  outcome_of r
  = Raised (ValueError "stdin can only be either a string of a file-like object!") /\
  requests (trace_of r)
  = [client_open_session;
     channel_set_combine_stderr 0%nat false;
     sftp_getcwd; sftp_getcwd;
     channel_exec_command 0%nat "cd '/home/user' && cat";
     channel_makefile 0%nat "wb" (-1);
     channel_makefile 0%nat "rb" (-1);
     channel_makefile_stderr 0%nat "rb" (-1)].
Proof.
  split; reflexivity.
Qed.

(** C5, as stated, fails: [/srv/new] does not exist and cannot be created;
    [mkdir] raises [OSError] for it as it does for [/srv], which exists. *)
Lemma mkdir_permission_denied_is_OSError :
  ("/srv/new" ∉ r_dirs host) /\
  ("/srv/new" ∉ r_files host) /\
  run paramiko (mkdir opened "/srv/new") host
  = (Raised (OSError "Permission denied"), host,
     [EvCall (sftp_mkdir "/srv/new") (inl (IOError (Some 13) "Permission denied"))]) /\
  ("/srv" ∈ r_dirs host) /\
  outcome_of (run paramiko (mkdir opened "/srv") host) = Raised (OSError "Failure").
Proof.
  split; [simpl; intros H; decompose_list_elem_of; discriminate|].
  split; [simpl; intros H; decompose_list_elem_of; discriminate|].
  split; [vm_compute; reflexivity|].
  split; [simpl; in_trace|].
  vm_compute; reflexivity.
Qed.

(** C6, as stated, fails: on a transport that was never opened, [isdir] of
    the empty path returns [False] and [chmod] of the empty path raises
    [IOError]; neither raises [TransportInternalError]. *)
Lemma closed_transport_argument_checks_first :
  run paramiko (isdir (__init__ "localhost") "") host = (Returned false, host, []) /\
  run paramiko (chmod (__init__ "localhost") "" 420) host
  = (Raised (IOError None "Input path is an empty argument."), host, []).
Proof.
  split; reflexivity.
Qed.

(** C8, as stated, fails: the [IOError] that [copy] raises is the same
    whatever the command wrote on its output and error streams. *)
Lemma copy_failure_drops_output :
  let r1 := run paramiko (copy quote_for_bash opened "a" "b" false)
              (with_command_result host 1 "out" "cp: cannot stat a") in
  let r2 := run paramiko (copy quote_for_bash opened "a" "b" false)
              (with_command_result host 1 "" "") in
  outcome_of r1 = Raised (IOError None "Error while executing cp. Exit code: 1") /\
  outcome_of r2 = outcome_of r1 /\
  EvLog ERROR "Problem executing cp. Exit code: {}, stdout: '{}', stderr: '{}'"
        [LInt 1; LStr "out"; LStr "cp: cannot stat a"] ∈ trace_of r1.
Proof.
  split; [vm_compute; reflexivity|]. split; [vm_compute; reflexivity|].
  vm_compute. in_trace.
Qed.

(** ** The theorems at work on the reference host *)

(** [cat] with the input ["abc"]: the run returns and ends with the three
    draining steps. *)
Lemma exec_command_wait_drains_in_order_witness :
  let r := run paramiko
             (exec_command_wait quote_for_bash opened "cat" (Some (PyStr "abc"))
                false (-1))
             (with_command_result host 0 "abc" "") in
  outcome_of r = Returned (0, "abc", "") /\
  exists ch t0,
    trace_of r =
      t0 ++ [EvCall (file_read (mkChannelFile ch "rb" false (-1)) None) (inr "abc");
             EvCall (channel_recv_exit_status ch) (inr 0);
             EvCall (file_read (mkChannelFile ch "rb" true (-1)) None) (inr "")] /\
    Forall (fun e => is_drain_step e = false) t0.
Proof.
  split; [reflexivity|].
  exact (proj2 (proj2 (exec_command_wait_drains_in_order quote_for_bash paramiko
                         opened "cat" (Some (PyStr "abc")) false (-1)
                         (with_command_result host 0 "abc" "")))
               0 "abc" "" eq_refl).
Defined.

(** [true] with no input: the input stream is flushed and shut down all the
    same, with no traffic on the streams before. *)
Lemma exec_command_wait_closes_stdin_witness :
  let r := run paramiko
             (exec_command_wait quote_for_bash opened "true" None false (-1))
             host in
  outcome_of r = Returned (0, "", "") /\
  exists ch t0 t1,
    trace_of r =
      t0 ++ [EvCall (file_flush (mkChannelFile ch "wb" false (-1))) (inr tt);
             EvCall (channel_shutdown_write ch) (inr tt)] ++ t1 /\
    Forall (fun e => is_stream_io e = false \/ is_stdin_write e = true) t0 /\
    (@None pyobject = None -> Forall (fun e => is_stream_io e = false) t0).
Proof.
  split; [reflexivity|].
  exact (proj2 (proj2 (exec_command_wait_closes_stdin quote_for_bash paramiko
                         opened "true" None false (-1) host))
               (0, "", "") eq_refl).
Defined.

Lemma _exec_command_internal_issues_witness :
  let r := run paramiko
             (_exec_command_internal quote_for_bash opened "ls -l" false (-1))
             host in
  channel_exec_command 0%nat "cd '/home/user' && ls -l" ∈ requests (trace_of r) /\
  exists cwd,
    last (getcwd_answers (trace_of r)) = Some cwd /\
    "cd '/home/user' && ls -l" =
      match cwd with
      | Some folder => "cd " +:+ quote_for_bash folder +:+ " && " +:+ "ls -l"
      | None => "ls -l"
      end.
Proof.
  assert (Hin : channel_exec_command 0%nat "cd '/home/user' && ls -l"
                ∈ requests (trace_of (run paramiko
                     (_exec_command_internal quote_for_bash opened "ls -l" false (-1))
                     host))).
  { simpl. in_trace. }
  split; [exact Hin|].
  exact (_exec_command_internal_issues quote_for_bash paramiko opened "ls -l" false
           (-1) host 0%nat "cd '/home/user' && ls -l" Hin).
Defined.

Lemma exec_command_wait_rejects_stdin_witness :
  is_basestring PyOther = false /\
  is_filelike PyOther = false /\
  trace_of (run paramiko
              (exec_command_wait quote_for_bash opened "cat" (Some PyOther) false (-1))
              host)
  = trace_of (run paramiko
                (_exec_command_internal quote_for_bash opened "cat" false (-1))
                host).
Proof.
  split; [reflexivity|]. split; [reflexivity|].
  exact (proj1 (exec_command_wait_rejects_stdin quote_for_bash paramiko opened "cat"
                  PyOther false (-1) host eq_refl eq_refl)).
Defined.

Lemma mkdir_raises_OSError_witness :
  _is_open opened = true /\
  run paramiko (mkdir opened "/srv/new") host
  = (Raised (OSError "Permission denied"), host,
     [EvCall (sftp_mkdir "/srv/new") (inl (IOError (Some 13) "Permission denied"))]).
Proof.
  split; [reflexivity|].
  exact (mkdir_raises_OSError paramiko opened "/srv/new" host eq_refl).
Defined.

Lemma closed_transport_makes_no_request_witness :
  _is_open (__init__ "localhost") = false /\
  trace_of (run paramiko (invoke quote_for_bash (__init__ "localhost") call_getcwd) host)
  = [].
Proof.
  split; [reflexivity|].
  exact (proj1 (closed_transport_makes_no_request quote_for_bash paramiko
                  (__init__ "localhost") call_getcwd host eq_refl)).
Defined.

Lemma isdir_isfile_check_witness :
  "/home/user/data" <> "" /\
  _is_open opened = true /\
  existence_check "/home/user/data" (fun m => Z.eqb (S_IFMT m) 16384)
    (run paramiko (isdir opened "/home/user/data") host).
Proof.
  assert (Hpath : "/home/user/data" <> "") by discriminate.
  split; [exact Hpath|]. split; [reflexivity|].
  exact (proj1 (proj2 (proj2 (isdir_isfile_check paramiko opened "/home/user/data" host))
                  Hpath eq_refl)).
Defined.

Lemma copy_outcome_witness :
  "a" <> "" /\ "b" <> "" /\
  outcome_of (run paramiko (copy quote_for_bash opened "a" "b" false)
                (with_command_result host 1 "out" "err"))
  = Raised (IOError None "Error while executing cp. Exit code: 1").
Proof.
  assert (Ha : "a" <> "") by discriminate.
  assert (Hb : "b" <> "") by discriminate.
  split; [exact Ha|]. split; [exact Hb|].
  rewrite (copy_outcome quote_for_bash paramiko opened "a" "b" false
             (with_command_result host 1 "out" "err") Ha Hb).
  reflexivity.
Defined.

Lemma get_attribute_fields_witness :
  _is_open opened = true /\
  paramiko (sftp_lstat "/home/user/notes.txt") host = (inr file_attributes, host) /\
  exists d : FileAttribute,
    outcome_of (run paramiko (get_attribute opened "/home/user/notes.txt") host)
    = Returned d /\
    dom d = list_to_set _valid_fields /\
    d !! "st_size" = Some (Some 12) /\
    d !! "longname" = None.
Proof.
  split; [reflexivity|]. split; [vm_compute; reflexivity|].
  destruct (get_attribute_fields paramiko opened "/home/user/notes.txt" host host
              file_attributes eq_refl ltac:(vm_compute; reflexivity))
    as (d & Hrun & Hdom & Hsize & _ & _ & _ & _ & _ & Hother).
  exists d. split; [rewrite Hrun; reflexivity|]. split; [exact Hdom|].
  split; [exact Hsize|].
  apply Hother. unfold _valid_fields. intros H. decompose_list_elem_of; discriminate.
Defined.

(** * Further properties *)

(** ** Opening, closing and the working directory *)

Section Lifecycle.

Variable escape_for_bash : string -> string.
Context {W : Type}.
Variable h : handler W.

(** X1: [chdir(None)] asks for no change of directory, but it is not a
    no-op: on an open transport it still makes the read check [stat('.')],
    and raises when the check does. *)
Theorem chdir_None_only_checks (self : SshTransport) (w : W) :
  _is_open self = true ->
  let b := h (sftp_stat ".") w in
  run h (chdir self None) w =
  (match b.1 with inl e => Raised e | inr _ => Returned tt end, b.2,
   [EvCall (sftp_stat ".") b.1]).
Proof.
  clear escape_for_bash.
  destruct self as [[|] machine]; simpl; [intros _|discriminate].
  unfold chdir. simpl.
  destruct (h (sftp_stat ".") w) as [[e|a] w1]; reflexivity.
Qed.

(** X2: [__enter__] connects, opens the SFTP client, asks it for the normal
    form of ["."] and changes to exactly the directory it answered; it
    gives an open transport only when the four requests returned, and
    otherwise raises the exception of the request that failed, having made
    no request after that one. *)
Theorem __enter___sets_working_directory (self : SshTransport) (w : W) :
  let r := run h (__enter__ self) w in
  (forall self', outcome_of r = Returned self' ->
     self' = {| _is_open := true; _machine := _machine self |} /\
     exists here,
       trace_of r =
         [EvCall (client_connect (_machine self)) (inr tt);
          EvCall client_open_sftp (inr tt);
          EvCall (sftp_normalize ".") (inr here);
          EvCall (sftp_chdir here) (inr tt)]) /\
  (forall e, outcome_of r = Raised e ->
     failures (trace_of r) = [e] /\
     exists t c, trace_of r = t ++ [EvCall c (inl e)]).
Proof.
  clear escape_for_bash.
  unfold __enter__. simpl.
  destruct (h (client_connect _) w) as [[x|[]] w1]; simpl.
  { split; [discriminate|]. intros e [= <-]. split; [reflexivity|].
    exists [], (client_connect (_machine self)). reflexivity. }
  destruct (h client_open_sftp w1) as [[x|[]] w2]; simpl.
  { split; [discriminate|]. intros e [= <-]. split; [reflexivity|].
    exists [EvCall (client_connect (_machine self)) (inr tt)], client_open_sftp.
    reflexivity. }
  destruct (h (sftp_normalize ".") w2) as [[x|here] w3]; simpl.
  { split; [discriminate|]. intros e [= <-]. split; [reflexivity|].
    exists [EvCall (client_connect (_machine self)) (inr tt);
            EvCall client_open_sftp (inr tt)], (sftp_normalize ".").
    reflexivity. }
  destruct (h (sftp_chdir here) w3) as [[x|[]] w4]; simpl.
  { split; [discriminate|]. intros e [= <-]. split; [reflexivity|].
    exists [EvCall (client_connect (_machine self)) (inr tt);
            EvCall client_open_sftp (inr tt);
            EvCall (sftp_normalize ".") (inr here)], (sftp_chdir here).
    reflexivity. }
  split; [|discriminate].
  intros self' [= <-]. split; [reflexivity|]. exists here. reflexivity.
Qed.

(** X3: [__exit__] closes the SFTP client first and the SSH client second.
    When closing the SFTP client raises, the SSH client is not closed and
    the exception propagates; the transport is marked closed only when both
    have returned. *)
Theorem __exit___stops_at_first_failure (self : SshTransport) (w : W) :
  let a := h sftp_close w in
  let b := h client_close a.2 in
  run h (__exit__ self) w =
  match a.1 with
  | inl e => (Raised e, a.2, [EvCall sftp_close a.1])
  | inr _ =>
      (match b.1 with
       | inl e => Raised e
       | inr _ => Returned {| _is_open := false; _machine := _machine self |}
       end, b.2, [EvCall sftp_close a.1; EvCall client_close b.1])
  end.
Proof.
  clear escape_for_bash.
  unfold __exit__. simpl.
  destruct (h sftp_close w) as [[e|[]] w1]; simpl; [reflexivity|].
  destruct (h client_close w1) as [[e|[]] w2]; reflexivity.
Qed.

(** X4: between [__enter__] and [__exit__] a method reaches paramiko, and
    after [__exit__] it does not any more: on the transport that [__enter__]
    returned, [listdir] makes its request; on the one that [__exit__]
    returned, [listdir] and [_exec_command_internal] raise
    [TransportInternalError] with no request made, as on a transport that
    was never opened. *)
Theorem with_block_opens_and_closes (self s1 s2 : SshTransport) (w w1 w2 : W)
    (path command : string) (combine_stderr : bool) (bufsize : Z) :
  outcome_of (run h (__enter__ self) w) = Returned s1 ->
  outcome_of (run h (__exit__ s1) w1) = Returned s2 ->
  requests (trace_of (run h (listdir s1 path) w2)) = [sftp_listdir path] /\
  run h (listdir s2 path) w2 =
    (Raised (TransportInternalError
       "Error, sftp method called for SshTransport without opening the channel first"),
     w2, []) /\
  run h (_exec_command_internal escape_for_bash s2 command combine_stderr bufsize) w2 =
    (Raised (TransportInternalError
       "Error, ssh method called for SshTransport without opening the channel first"),
     w2, []) /\
  run h (listdir (__init__ (_machine self)) path) w2 = run h (listdir s2 path) w2.
Proof.
  intros Henter Hexit.
  apply __enter___opens in Henter. apply __exit___closes in Hexit.
  destruct s1 as [o1 m1], s2 as [o2 m2]. simpl in Henter, Hexit. subst o1 o2.
  unfold listdir, _exec_command_internal. simpl.
  split; [|split; [reflexivity|split; reflexivity]].
  destruct (h (sftp_listdir path) w2) as [[e|l] w3]; reflexivity.
Qed.

End Lifecycle.

(** ** File operations *)

Section FileOperations.

Variable escape_for_bash : string -> string.
Context {W : Type}.
Variable h : handler W.

(** X5: [chmod] of the empty path raises [IOError] without any request,
    whether the transport is open or not; of another path, on an open
    transport, it makes the one request [chmod(path, mode)] and passes on
    what paramiko answers, exception included. *)
Theorem chmod_checks_path (self : SshTransport) (path : string) (mode : Z) (w : W) :
  run h (chmod self "" mode) w
  = (Raised (IOError None "Input path is an empty argument."), w, []) /\
  (path <> "" -> _is_open self = true ->
   let a := h (sftp_chmod path mode) w in
   run h (chmod self path mode) w =
   (match a.1 with inl e => Raised e | inr _ => Returned tt end, a.2,
    [EvCall (sftp_chmod path mode) a.1])).
Proof.
  clear escape_for_bash.
  split; [reflexivity|]. intros Hpath Hopen.
  assert (Hnot : py_not path = false) by (destruct path; [congruence|reflexivity]).
  destruct self as [[|] machine]; simpl in Hopen; [clear Hopen|discriminate].
  unfold chmod. rewrite Hnot. simpl.
  destruct (h (sftp_chmod path mode) w) as [[e|[]] w1]; reflexivity.
Qed.

(** X6: [put] and [get] refuse a local path that is not absolute with
    [ValueError], before any request and on any transport; with an absolute
    local path, on an open transport, each makes the one transfer request
    with the paths and the callback it was given and passes on what paramiko
    answers. *)
Theorem put_get_need_absolute_localpath (self : SshTransport)
    (localpath remotepath : string) (callback : option nat) (w : W) :
  (isabs localpath = false ->
   run h (put self localpath remotepath callback) w
   = (Raised (ValueError "The localpath must be an absolute path"), w, []) /\
   run h (get self remotepath localpath callback) w
   = (Raised (ValueError "The localpath must be an absolute path"), w, [])) /\
  (isabs localpath = true -> _is_open self = true ->
   let a := h (sftp_put localpath remotepath callback) w in
   let b := h (sftp_get remotepath localpath callback) w in
   run h (put self localpath remotepath callback) w
   = (match a.1 with inl e => Raised e | inr attr => Returned attr end, a.2,
      [EvCall (sftp_put localpath remotepath callback) a.1]) /\
   run h (get self remotepath localpath callback) w
   = (match b.1 with inl e => Raised e | inr _ => Returned tt end, b.2,
      [EvCall (sftp_get remotepath localpath callback) b.1])).
Proof.
  clear escape_for_bash.
  unfold put, get. split.
  - intros ->. split; reflexivity.
  - intros -> Hopen.
    destruct self as [[|] machine]; simpl in Hopen; [clear Hopen|discriminate].
    simpl. split.
    + destruct (h (sftp_put _ _ _) w) as [[e|a] w1]; reflexivity.
    + destruct (h (sftp_get _ _ _) w) as [[e|[]] w1]; reflexivity.
Qed.

(** [get_attribute] asks paramiko once, with [lstat]; when [lstat] raises,
    the exception propagates unchanged and no [FileAttribute] is built. *)
Lemma get_attribute_lstat_raises (self : SshTransport) (path : string)
    (w w1 : W) (e : pyexc) :
  _is_open self = true ->
  h (sftp_lstat path) w = (inl e, w1) ->
  run h (get_attribute self path) w
  = (Raised e, w1, [EvCall (sftp_lstat path) (inl e)]).
Proof.
  clear escape_for_bash. intros Hopen Hlstat.
  destruct self as [[|] machine]; simpl in Hopen; [clear Hopen|discriminate].
  unfold get_attribute. simpl. rewrite Hlstat. reflexivity.
Qed.

(** X7: [copy] refuses an empty source, and then an empty destination, with
    [ValueError] and without any request, whether the transport is open or
    not. *)
Theorem copy_refuses_empty_paths (self : SshTransport) (src dst : string)
    (dereference : bool) (w : W) :
  run h (copy escape_for_bash self "" dst dereference) w
  = (Raised (ValueError
       "Input to copy() must be a non empty string. Found instead  as remotesource"),
     w, []) /\
  (src <> "" ->
   run h (copy escape_for_bash self src "" dereference) w
   = (Raised (ValueError
        "Input to copy() must be a non empty string. Found instead  as remotedestination"),
      w, [])).
Proof.
  split; [reflexivity|]. intros Hsrc.
  assert (Hs : py_not src = false) by (destruct src; [congruence|reflexivity]).
  unfold copy. cbv zeta. rewrite Hs. reflexivity.
Qed.

Lemma py_not_rstrip (s : string) :
  py_not (rstrip s) = forallb is_whitespace (characters s).
Proof.
  induction s as [|c s IH]; simpl; [reflexivity|].
  destruct (rstrip s) as [|c' r]; simpl in IH; rewrite <- IH.
  - destruct (is_whitespace c); reflexivity.
  - rewrite andb_false_r. reflexivity.
Qed.

Lemma forallb_whitespace_lstrip (s : string) :
  forallb is_whitespace (characters (lstrip s))
  = forallb is_whitespace (characters s).
Proof.
  induction s as [|c s IH]; simpl; [reflexivity|].
  destruct (is_whitespace c) eqn:Hc; simpl; [exact IH|].
  rewrite Hc. reflexivity.
Qed.

Lemma py_not_strip (s : string) :
  py_not (strip s) = forallb is_whitespace (characters s).
Proof.
  unfold strip. rewrite py_not_rstrip. apply forallb_whitespace_lstrip.
Qed.

Lemma requests_app (t1 t2 : list event) :
  requests (t1 ++ t2) = requests t1 ++ requests t2.
Proof. unfold requests. apply omap_app. Qed.

(** X8: when [cp] exits with 0, [copy] returns [True], and it logs its
    warning exactly when the error output has a character that is not white
    space; an error output of blanks and newlines is not reported. *)
Theorem copy_warns_on_visible_stderr (self : SshTransport) (src dst : string)
    (dereference : bool) (w w1 : W) (stdout stderr : string) (t1 : list event) :
  src <> "" -> dst <> "" ->
  run h (exec_command_wait escape_for_bash self
           ("cp" +:+ " " +:+ (if dereference then "-r -f -L" else "-r -f") +:+ " "
                 +:+ escape_for_bash src +:+ " " +:+ escape_for_bash dst)
           None false (-1)) w
  = (Returned (0, stdout, stderr), w1, t1) ->
  let r := run h (copy escape_for_bash self src dst dereference) w in
  outcome_of r = Returned true /\
  (EvLog WARNING "There was nonempty stderr in the cp command: {}" [LStr stderr]
     ∈ drop (length t1) (trace_of r)
   <-> exists c, c ∈ characters stderr /\ is_whitespace c = false).
Proof.
  intros Hsrc Hdst Hexec.
  assert (Hs : py_not src = false) by (destruct src; [congruence|reflexivity]).
  assert (Hd : py_not dst = false) by (destruct dst; [congruence|reflexivity]).
  unfold copy. cbv zeta. rewrite Hs, Hd, run_bind.
  assert (Hrun : run h (exec_command_wait escape_for_bash self
                   ("cp" +:+ " " +:+ (if dereference then "-r -f" +:+ " -L" else "-r -f")
                         +:+ " " +:+ escape_for_bash src +:+ " " +:+ escape_for_bash dst)
                   None false (-1)) w
                 = (Returned (0, stdout, stderr), w1, t1)).
  { destruct dereference; exact Hexec. }
  rewrite Hrun. cbn [Z.eqb]. rewrite py_not_strip.
  destruct (forallb is_whitespace (characters stderr)) eqn:Hall; simpl.
  - split; [reflexivity|].
    unfold trace_of. simpl. rewrite app_nil_r, drop_all.
    split; [intros Hin; apply elem_of_nil in Hin; contradiction|].
    intros (c & Hc & Hws).
    rewrite forallb_forall in Hall. apply list_elem_of_In in Hc.
    rewrite (Hall c Hc) in Hws. discriminate.
  - split; [reflexivity|].
    unfold trace_of. simpl. rewrite drop_app_length.
    split; [intros _|intros _; apply list_elem_of_here].
    destruct (forallb is_whitespace (characters stderr)) eqn:Hall'; [discriminate|].
    clear Hall.
    induction (characters stderr) as [|c l IH]; simpl in Hall'; [discriminate|].
    destruct (is_whitespace c) eqn:Hc.
    + destruct (IH Hall') as (c' & Hin & Hws).
      exists c'. split; [apply list_elem_of_further; exact Hin|exact Hws].
    + exists c. split; [apply list_elem_of_here|exact Hc].
Qed.

End FileOperations.

(** ** Command execution *)

Section Execution.

Variable escape_for_bash : string -> string.
Context {W : Type}.
Variable h : handler W.

(** X9: a call of [_exec_command_internal] that returns has made, in this
    order: one [open_session], [set_combine_stderr] with the flag it was
    given, one or two [getcwd], one [exec_command], and the three [makefile]
    with the buffer size it was given, all on the channel of the session;
    the files it returns are the ["wb"] file of that channel for the input
    and its two ["rb"] files for the output and the error output. *)
Theorem _exec_command_internal_sequence (self : SshTransport) (command : string)
    (combine_stderr : bool) (bufsize : Z) (w : W)
    (fin fout ferr : ChannelFile) (ch : Channel) :
  let r := run h (_exec_command_internal escape_for_bash self command
                    combine_stderr bufsize) w in
  outcome_of r = Returned (fin, fout, ferr, ch) ->
  fin = mkChannelFile ch "wb" false bufsize /\
  fout = mkChannelFile ch "rb" false bufsize /\
  ferr = mkChannelFile ch "rb" true bufsize /\
  failures (trace_of r) = [] /\
  exists n c,
    (n = 1 \/ n = 2)%nat /\
    requests (trace_of r) =
      [client_open_session; channel_set_combine_stderr ch combine_stderr]
      ++ replicate n sftp_getcwd
      ++ [channel_exec_command ch c;
          channel_makefile ch "wb" bufsize;
          channel_makefile ch "rb" bufsize;
          channel_makefile_stderr ch "rb" bufsize].
Proof.
  destruct self as [[|] machine]; unfold _exec_command_internal, getcwd; simpl.
  2:{ intros [=]. }
  destruct (h client_open_session w) as [[x|ch'] w1]; simpl; [intros [=]|].
  destruct (h (channel_set_combine_stderr ch' combine_stderr) w1) as [[x|[]] w2];
    simpl; [intros [=]|].
  destruct (h sftp_getcwd w2) as [[x|[cwd|]] w3]; simpl; [intros [=]| |].
  - destruct (h sftp_getcwd w3) as [[x|[folder|]] w4]; simpl;
      [intros [=]| |intros [=]].
    destruct (h (channel_exec_command ch' _) w4) as [[x|[]] w5]; simpl; [intros [=]|].
    destruct (h (channel_makefile ch' "wb" bufsize) w5) as [[x|[]] w6]; simpl;
      [intros [=]|].
    destruct (h (channel_makefile ch' "rb" bufsize) w6) as [[x|[]] w7]; simpl;
      [intros [=]|].
    destruct (h (channel_makefile_stderr ch' "rb" bufsize) w7) as [[x|[]] w8]; simpl;
      [intros [=]|].
    intros [= <- <- <- <-]. do 4 (split; [reflexivity|]).
    eexists 2%nat, _. split; [right; reflexivity|reflexivity].
  - destruct (h (channel_exec_command ch' _) w3) as [[x|[]] w5]; simpl; [intros [=]|].
    destruct (h (channel_makefile ch' "wb" bufsize) w5) as [[x|[]] w6]; simpl;
      [intros [=]|].
    destruct (h (channel_makefile ch' "rb" bufsize) w6) as [[x|[]] w7]; simpl;
      [intros [=]|].
    destruct (h (channel_makefile_stderr ch' "rb" bufsize) w7) as [[x|[]] w8]; simpl;
      [intros [=]|].
    intros [= <- <- <- <-]. do 4 (split; [reflexivity|]).
    eexists 1%nat, _. split; [left; reflexivity|reflexivity].
Qed.

(** A call of [_exec_command_internal] issues no command or one, composed
    from the last answer of [getcwd()]. *)
Lemma _exec_command_internal_commands (self : SshTransport) (command : string)
    (combine_stderr : bool) (bufsize : Z) (w : W) :
  let t := trace_of (run h (_exec_command_internal escape_for_bash self command
                              combine_stderr bufsize) w) in
  issued_commands t = [] \/
  exists cwd,
    last (getcwd_answers t) = Some cwd /\
    issued_commands t = [command_in escape_for_bash cwd command].
Proof.
  destruct self as [[|] machine]; unfold _exec_command_internal, getcwd; simpl.
  2:{ left; reflexivity. }
  destruct (h client_open_session w) as [[x|ch'] w1]; simpl; [left; reflexivity|].
  destruct (h (channel_set_combine_stderr ch' combine_stderr) w1) as [[x|[]] w2];
    simpl; [left; reflexivity|].
  destruct (h sftp_getcwd w2) as [[x|[cwd|]] w3]; simpl; [left; reflexivity| |].
  - destruct (h sftp_getcwd w3) as [[x|[folder|]] w4]; simpl;
      [left; reflexivity| |left; reflexivity].
    destruct (h (channel_exec_command ch' _) w4) as [[x|[]] w5]; simpl.
    { right. exists (Some folder). split; reflexivity. }
    destruct (h (channel_makefile ch' "wb" bufsize) w5) as [[x|[]] w6]; simpl.
    { right. exists (Some folder). split; reflexivity. }
    destruct (h (channel_makefile ch' "rb" bufsize) w6) as [[x|[]] w7]; simpl.
    { right. exists (Some folder). split; reflexivity. }
    destruct (h (channel_makefile_stderr ch' "rb" bufsize) w7) as [[x|[]] w8]; simpl;
      right; exists (Some folder); split; reflexivity.
  - destruct (h (channel_exec_command ch' _) w3) as [[x|[]] w5]; simpl.
    { right. exists None. split; reflexivity. }
    destruct (h (channel_makefile ch' "wb" bufsize) w5) as [[x|[]] w6]; simpl.
    { right. exists None. split; reflexivity. }
    destruct (h (channel_makefile ch' "rb" bufsize) w6) as [[x|[]] w7]; simpl.
    { right. exists None. split; reflexivity. }
    destruct (h (channel_makefile_stderr ch' "rb" bufsize) w7) as [[x|[]] w8]; simpl;
      right; exists None; split; reflexivity.
Qed.

(** The writes of the loop over the lines: all of them when the loop
    returns, and those up to the first that fails otherwise. *)
Lemma for_each_write_shape (f : ChannelFile) (lines : list string) (w : W) :
  let r := run h (for_each lines (fun l => ext (file_write f l))) w in
  (outcome_of r = Returned tt /\
   trace_of r = map (fun l => EvCall (file_write f l) (inr tt)) lines) \/
  (exists done l e,
     outcome_of r = Raised e /\
     trace_of r = map (fun l => EvCall (file_write f l) (inr tt)) done
                  ++ [EvCall (file_write f l) (inl e)]).
Proof.
  revert w. induction lines as [|l lines IH]; intros w; simpl.
  - left. split; reflexivity.
  - destruct (h (file_write f l) w) as [[x|[]] w1]; simpl.
    + right. exists [], l, x. split; reflexivity.
    + specialize (IH w1). simpl in IH.
      destruct (run h (for_each lines _) w1) as [[o w2] t].
      unfold outcome_of, trace_of in *. simpl in *.
      destruct IH as [[-> ->]|(done & l' & e & -> & ->)].
      * left. split; reflexivity.
      * right. exists (l :: done), l', e. split; reflexivity.
Qed.


Lemma write_failures_app (t1 t2 : list event) :
  write_failures (t1 ++ t2) = write_failures t1 ++ write_failures t2.
Proof. unfold write_failures. apply omap_app. Qed.

Lemma issued_commands_app (t1 t2 : list event) :
  issued_commands (t1 ++ t2) = issued_commands t1 ++ issued_commands t2.
Proof. unfold issued_commands. apply omap_app. Qed.

Lemma no_stream_io_no_write (t : list event) :
  Forall (fun e => is_stream_io e = false) t ->
  written_data t = [] /\ write_failures t = [].
Proof.
  induction 1 as [|e t He _ [IH1 IH2]]; [split; reflexivity|].
  destruct e as [[] [x|v]|]; cbv in He; try discriminate He;
    unfold written_data, write_failures in *; simpl; split; assumption.
Qed.

Lemma written_data_writes (f : ChannelFile) (lines : list string) :
  written_data (map (fun l => EvCall (file_write f l) (inr tt)) lines) = lines /\
  write_failures (map (fun l => EvCall (file_write f l) (inr tt)) lines) = [].
Proof.
  induction lines as [|l lines [IH1 IH2]]; [split; reflexivity|].
  unfold written_data, write_failures in *. simpl.
  split; [f_equal; exact IH1|exact IH2].
Qed.

Lemma rev_app_append (a b s : string) :
  String.rev_app a b +:+ s = String.rev_app a (b +:+ s).
Proof.
  revert b. induction a as [|c a IH]; intros b; simpl; [reflexivity|].
  rewrite IH. reflexivity.
Qed.

Lemma joined_readlines_from (cur s : string) :
  joined (readlines_from cur s) = String.rev cur +:+ s.
Proof.
  revert cur. induction s as [|c s IH]; intros cur; simpl.
  - destruct cur; reflexivity.
  - destruct (Nat.eqb (nat_of_ascii c) 10); unfold joined in *; simpl.
    + specialize (IH EmptyString). simpl in IH. rewrite IH.
      unfold String.rev. simpl. rewrite !rev_app_append. reflexivity.
    + rewrite IH. unfold String.rev. simpl. rewrite !rev_app_append. reflexivity.
Qed.

(** The lines that [StringIO(s).readlines()] gives, put together again,
    are [s]. *)
Lemma joined_StringIO_readlines (s : string) : joined (StringIO_readlines s) = s.
Proof. unfold StringIO_readlines. apply joined_readlines_from. Qed.

(** What [write_stdin] writes when it returns, and how it fails when a
    write does. *)
Lemma write_stdin_shape (f : ChannelFile) (x : pyobject) (w : W) :
  let r := run h (write_stdin f x) w in
  (outcome_of r = Returned tt ->
   write_failures (trace_of r) = [] /\
   match x with
   | PyStr s | PyStringIO s => joined (written_data (trace_of r)) = s
   | PyFile lines => written_data (trace_of r) = lines
   | PyOther => False
   end) /\
  (forall e, e ∈ write_failures (trace_of r) ->
     outcome_of r =
       Raised (if is_AttributeError e
               then ValueError "stdin can only be either a string of a file-like object!"
               else e)).
Proof.
  unfold write_stdin. rewrite run_try_except.
  assert (Hcases :
    (exists lines, readlines (match x with PyStr s => PyStringIO s | _ => x end)
                   = Ret lines /\
       match x with
       | PyStr s | PyStringIO s => joined lines = s
       | PyFile lines' => lines = lines'
       | PyOther => False
       end) \/
    x = PyOther).
  { destruct x; simpl; eauto using joined_StringIO_readlines. }
  destruct Hcases as [(lines & -> & Hlines)| ->]; simpl.
  - pose proof (for_each_write_shape f lines w) as Hshape. simpl in Hshape.
    destruct (run h (for_each lines _) w) as [[o w1] t].
    unfold outcome_of, trace_of in *. simpl in *.
    destruct Hshape as [[-> ->]|(done & l & e & -> & ->)]; cbn [fst snd].
    + destruct (written_data_writes f lines) as [Hw Hf]. rewrite Hw, Hf.
      split.
      * intros _. split; [reflexivity|]. destruct x; try exact Hlines; congruence.
      * intros e He. apply elem_of_nil in He. contradiction.
    + destruct (is_AttributeError e) eqn:Hattr; simpl; rewrite app_nil_r.
      * split; [discriminate|]. intros e' He'.
        rewrite write_failures_app in He'.
        destruct (written_data_writes f done) as [_ Hf]. rewrite Hf in He'.
        simpl in He'. apply list_elem_of_singleton in He' as ->.
        rewrite Hattr. reflexivity.
      * split; [discriminate|]. intros e' He'.
        rewrite write_failures_app in He'.
        destruct (written_data_writes f done) as [_ Hf]. rewrite Hf in He'.
        simpl in He'. apply list_elem_of_singleton in He' as ->.
        rewrite Hattr. reflexivity.
  - split; [discriminate|]. intros e He. apply elem_of_nil in He. contradiction.
Qed.

(** A run of [exec_command_wait] is a run of [_exec_command_internal],
    then a run of the part that feeds [stdin], then draining steps. *)
Lemma exec_command_wait_split (self : SshTransport) (command : string)
    (stdin : option pyobject) (combine_stderr : bool) (bufsize : Z) (w : W) :
  let r := run h (exec_command_wait escape_for_bash self command stdin
                    combine_stderr bufsize) w in
  match run h (_exec_command_internal escape_for_bash self command
                 combine_stderr bufsize) w with
  | (Raised e, w1, t1) => r = (Raised e, w1, t1)
  | (Returned (fin, fout, ferr, ch), w1, t1) =>
      match run h (match stdin with
                   | Some x => write_stdin fin x
                   | None => Ret tt
                   end) w1 with
      | (Raised e, w2, t2) => r = (Raised e, w2, t1 ++ t2)
      | (Returned _, w2, t2) =>
          exists t3,
            trace_of r = t1 ++ t2 ++ t3 /\
            Forall (fun e => is_stdin_write e = false /\ is_stream_io e = true) t3
      end
  end.
Proof.
  unfold exec_command_wait. rewrite run_bind.
  destruct (run h (_exec_command_internal _ _ _ _ _) w)
    as [[[[[[fin fout] ferr] ch]|x] w1] t1]; [|reflexivity].
  rewrite run_bind.
  destruct (run h (match stdin with Some _ => _ | None => _ end) w1)
    as [[[[]|x] w2] t2]; [|reflexivity].
  simpl.
  destruct (h (file_flush fin) w2) as [[x|[]] w3]; simpl.
  { eexists. split; [reflexivity|]. repeat constructor. }
  destruct (h (channel_shutdown_write _) w3) as [[x|[]] w4]; simpl.
  { eexists. split; [reflexivity|]. repeat constructor. }
  destruct (h (file_read fout None) w4) as [[x|out] w5]; simpl.
  { eexists. split; [reflexivity|]. repeat constructor. }
  destruct (h (channel_recv_exit_status ch) w5) as [[x|retval] w6]; simpl.
  { eexists. split; [reflexivity|]. repeat constructor. }
  destruct (h (file_read ferr None) w6) as [[x|err] w7]; simpl;
    eexists; (split; [reflexivity|]); repeat constructor.
Qed.

Lemma drain_steps_write_nothing (t : list event) :
  Forall (fun e => is_stdin_write e = false /\ is_stream_io e = true) t ->
  written_data t = [] /\ write_failures t = [] /\ issued_commands t = [].
Proof.
  induction 1 as [|e t [Hw Hio] _ (IH1 & IH2 & IH3)]; [repeat split|].
  destruct e as [[] [x|v]|]; cbv in Hw, Hio; try discriminate Hw; try discriminate Hio;
    unfold written_data, write_failures, issued_commands in *; simpl;
    repeat split; assumption.
Qed.

Lemma writes_issue_nothing (t : list event) :
  Forall (fun e => is_stdin_write e = true) t -> issued_commands t = [].
Proof.
  induction 1 as [|e t He _ IH]; [reflexivity|].
  destruct e as [[] r|]; cbv in He; try discriminate He.
  unfold issued_commands in *. simpl. exact IH.
Qed.


(** X11: when a write to the input stream fails, [exec_command_wait] stops
    there: it does not flush, shut down or read anything afterwards, and it
    raises the exception of the write, except that an [AttributeError] from
    the write is reported as the [ValueError] about the type of [stdin]. *)
Theorem exec_command_wait_stops_at_failed_write (self : SshTransport)
    (command : string) (stdin : option pyobject) (combine_stderr : bool)
    (bufsize : Z) (w : W) (e : pyexc) :
  let r := run h (exec_command_wait escape_for_bash self command stdin
                    combine_stderr bufsize) w in
  e ∈ write_failures (trace_of r) ->
  outcome_of r =
    Raised (if is_AttributeError e
            then ValueError "stdin can only be either a string of a file-like object!"
            else e) /\
  Forall (fun ev => is_stream_io ev = false \/ is_stdin_write ev = true) (trace_of r).
Proof.
  intros r He.
  pose proof (exec_command_wait_split self command stdin combine_stderr bufsize w)
    as Hsplit.
  pose proof (_exec_command_internal_run escape_for_bash h self command
                combine_stderr bufsize w) as [Hsetup _].
  fold r in Hsplit. simpl in Hsplit, Hsetup.
  destruct (run h (_exec_command_internal _ _ _ _ _) w)
    as [[[[[[fin fout] ferr] ch]|x] w1] t1]; unfold trace_of in Hsetup; simpl in Hsetup;
    destruct (no_stream_io_no_write t1 Hsetup) as [_ Hf1].
  2:{ rewrite Hsplit in He. unfold trace_of in He. simpl in He.
      rewrite Hf1 in He. apply elem_of_nil in He. contradiction. }
  destruct stdin as [x|].
  - pose proof (write_stdin_shape fin x w1) as [Hwritten Hfail].
    pose proof (write_stdin_run h fin x w1) as Hwrites.
    destruct (run h (write_stdin fin x) w1) as [[[[]|e'] w2] t2];
      unfold trace_of, outcome_of in *; simpl in *.
    + destruct Hsplit as (t3 & Ht & Hdrain).
      destruct (drain_steps_write_nothing t3 Hdrain) as (_ & Hf3 & _).
      destruct (Hwritten eq_refl) as [Hf2 _].
      rewrite Ht, !write_failures_app, Hf1, Hf2, Hf3 in He.
      apply elem_of_nil in He. contradiction.
    + rewrite Hsplit in *. simpl in *.
      rewrite write_failures_app, Hf1 in He. simpl in He.
      split; [specialize (Hfail e He); injection Hfail as ->; reflexivity|].
      rewrite Forall_app. split.
      * eapply Forall_impl; [exact Hsetup|]. intros ev Hev. left. exact Hev.
      * eapply Forall_impl; [exact Hwrites|]. intros ev Hev. right. exact Hev.
  - simpl in Hsplit. destruct Hsplit as (t3 & Ht & Hdrain).
    destruct (drain_steps_write_nothing t3 Hdrain) as (_ & Hf3 & _).
    unfold trace_of in *.
    rewrite Ht, !write_failures_app, Hf1, Hf3 in He.
    apply elem_of_nil in He. contradiction.
Qed.

(** The commands that a call of [exec_command_wait] issues are those of
    its call of [_exec_command_internal]. *)
Lemma exec_command_wait_commands (self : SshTransport) (command : string)
    (stdin : option pyobject) (combine_stderr : bool) (bufsize : Z) (w : W) :
  let t := trace_of (run h (exec_command_wait escape_for_bash self command stdin
                              combine_stderr bufsize) w) in
  issued_commands t = [] \/
  exists cwd,
    last (getcwd_answers t) = Some cwd /\
    issued_commands t = [command_in escape_for_bash cwd command].
Proof.
  intros t. subst t.
  pose proof (exec_command_wait_split self command stdin combine_stderr bufsize w)
    as Hsplit.
  pose proof (_exec_command_internal_commands self command combine_stderr bufsize w)
    as Hcmd.
  simpl in Hsplit, Hcmd.
  destruct (run h (_exec_command_internal _ _ _ _ _) w)
    as [[[[[[fin fout] ferr] ch]|x] w1] t1]; unfold trace_of in Hcmd; simpl in Hcmd.
  2:{ rewrite Hsplit. exact Hcmd. }
  assert (Hrest : forall t2 t3,
            Forall (fun e => is_stdin_write e = true) t2 ->
            Forall (fun e => is_stdin_write e = false /\ is_stream_io e = true) t3 ->
            issued_commands (t1 ++ t2 ++ t3) = issued_commands t1 /\
            getcwd_answers (t1 ++ t2 ++ t3) = getcwd_answers t1).
  { intros t2 t3 H2 H3. unfold getcwd_answers.
    rewrite !issued_commands_app, !omap_app.
    rewrite (writes_issue_nothing t2 H2).
    destruct (drain_steps_write_nothing t3 H3) as (_ & _ & ->).
    assert (Hg2 : omap getcwd_answer t2 = []).
    { clear -H2. induction H2 as [|e t2 He _ IH]; [reflexivity|].
      destruct e as [[] r|]; cbv in He; try discriminate He. simpl. exact IH. }
    assert (Hg3 : omap getcwd_answer t3 = []).
    { clear -H3. induction H3 as [|e t3 [Hw Hio] _ IH]; [reflexivity|].
      destruct e as [[] r|]; cbv in Hw, Hio; try discriminate Hw; try discriminate Hio;
        simpl; exact IH. }
    rewrite Hg2, Hg3, !app_nil_r. split; reflexivity. }
  assert (Hwrites : Forall (fun e => is_stdin_write e = true)
            (trace_of (run h (match stdin with
                              | Some x => write_stdin fin x
                              | None => Ret tt
                              end) w1))).
  { destruct stdin as [x|]; [apply write_stdin_run|constructor]. }
  destruct (run h (match stdin with Some _ => _ | None => _ end) w1)
    as [[[[]|x] w2] t2]; unfold trace_of in Hwrites; simpl in Hwrites.
  - destruct Hsplit as (t3 & Ht & Hdrain). unfold trace_of in *. rewrite Ht.
    destruct (Hrest t2 t3 Hwrites Hdrain) as [-> ->]. exact Hcmd.
  - rewrite Hsplit. unfold trace_of. simpl.
    destruct (Hrest t2 [] Hwrites (Forall_nil_2 _)) as [Hi Hg].
    rewrite app_nil_r in Hi, Hg. rewrite Hi, Hg. exact Hcmd.
Qed.

(** X12: a call of [exec_command_wait] issues at most one command on the
    channel, whatever [stdin] is and whatever happens afterwards, and that
    command is the one given, after [cd <escaped folder> &&] when the last
    [getcwd()] returned a folder. *)
Theorem exec_command_wait_issues_one_command (self : SshTransport) (command : string)
    (stdin : option pyobject) (combine_stderr : bool) (bufsize : Z) (w : W) :
  let t := trace_of (run h (exec_command_wait escape_for_bash self command stdin
                              combine_stderr bufsize) w) in
  issued_commands t = [] \/
  exists cwd,
    last (getcwd_answers t) = Some cwd /\
    issued_commands t = [command_in escape_for_bash cwd command].
Proof.
  exact (exec_command_wait_commands self command stdin combine_stderr bufsize w).
Qed.

Lemma log_issues_nothing (t : list event) (lvl : loglevel) (fmt : string)
    (args : list logarg) :
  issued_commands (t ++ [EvLog lvl fmt args]) = issued_commands t /\
  getcwd_answers (t ++ [EvLog lvl fmt args]) = getcwd_answers t.
Proof.
  unfold getcwd_answers. rewrite issued_commands_app, omap_app. simpl.
  rewrite !app_nil_r. split; reflexivity.
Qed.

(** X13: with a source and a destination that are not empty, [copy] issues
    at most one command, and it is [cp -r -f <escaped source> <escaped
    destination>], with [-L] after the flags exactly when [dereference] is
    set, run from the working directory like any other command. *)
Theorem copy_issues_cp (self : SshTransport) (src dst : string) (dereference : bool)
    (w : W) :
  src <> "" -> dst <> "" ->
  let t := trace_of (run h (copy escape_for_bash self src dst dereference) w) in
  let cp := "cp " +:+ (if dereference then "-r -f -L" else "-r -f") +:+ " "
                  +:+ escape_for_bash src +:+ " " +:+ escape_for_bash dst in
  issued_commands t = [] \/
  exists cwd,
    last (getcwd_answers t) = Some cwd /\
    issued_commands t = [command_in escape_for_bash cwd cp].
Proof.
  intros Hsrc Hdst.
  assert (Hs : py_not src = false) by (destruct src; [congruence|reflexivity]).
  assert (Hd : py_not dst = false) by (destruct dst; [congruence|reflexivity]).
  unfold copy. cbv zeta. rewrite Hs, Hd, run_bind.
  assert (Hcmd := fun c => exec_command_wait_commands self c None false (-1) w).
  destruct dereference; cbn [String.append] in *;
    match goal with
    | |- context [run h (exec_command_wait escape_for_bash self ?c None false (-1)) w] =>
        specialize (Hcmd c)
    end;
    cbv zeta in Hcmd;
    destruct (run h (exec_command_wait _ _ _ _ _ _) w)
      as [[[[[retval out] err]|e] w1] t1];
    unfold trace_of in *; simpl in Hcmd; try exact Hcmd;
    destruct (Z.eqb retval 0); simpl;
    try destruct (py_not (strip err)); simpl;
    rewrite ?app_nil_r;
    try (destruct (log_issues_nothing t1 WARNING
                     "There was nonempty stderr in the cp command: {}" [LStr err])
           as [-> ->]);
    try (destruct (log_issues_nothing t1 ERROR
                     "Problem executing cp. Exit code: {}, stdout: '{}', stderr: '{}'"
                     [LInt retval; LStr out; LStr err]) as [-> ->]);
    exact Hcmd.
Qed.

End Execution.

(** ** The constructor *)

Section Constructor.

Lemma dict_get_del (d : pydict) (k k' : string) :
  dict_get (dict_del d k) k' = if String.eqb k k' then None else dict_get d k'.
Proof.
  induction d as [|[k0 v] d IH]; simpl.
  - destruct (String.eqb k k'); reflexivity.
  - destruct (String.eqb_spec k0 k) as [->|Hne]; simpl.
    + rewrite IH. destruct (String.eqb k k'); reflexivity.
    + rewrite IH. destruct (String.eqb_spec k k') as [->|Hne'].
      * destruct (String.eqb_spec k0 k'); [contradiction|reflexivity].
      * reflexivity.
Qed.

Lemma dict_del_absent (d : pydict) (k : string) :
  dict_get d k = None -> dict_del d k = d.
Proof.
  induction d as [|[k0 v] d IH]; simpl; [reflexivity|].
  destruct (String.eqb k0 k); [discriminate|].
  intros H. rewrite (IH H). reflexivity.
Qed.

Lemma dict_keys_del (d : pydict) (k : string) :
  dict_keys (dict_del d k) = filter (fun k' => k' <> k) (dict_keys d).
Proof.
  induction d as [|[k0 v] d IH]; simpl; [reflexivity|].
  destruct (String.eqb_spec k0 k) as [->|Hne].
  - rewrite filter_cons_False by (intros H; apply H; reflexivity). exact IH.
  - rewrite filter_cons_True by exact Hne. simpl. rewrite IH. reflexivity.
Qed.

Lemma dict_get_app (d1 d2 : pydict) (k : string) :
  dict_get (d1 ++ d2) k
  = match dict_get d1 k with Some v => Some v | None => dict_get d2 k end.
Proof.
  induction d1 as [|[k0 v] d1 IH]; simpl; [reflexivity|].
  destruct (String.eqb k0 k); [reflexivity|exact IH].
Qed.

Lemma dict_get_replace (d : pydict) (k k' : string) (v : pyarg) :
  dict_get (map (fun kv => if String.eqb kv.1 k then (k, v) else kv) d) k'
  = if String.eqb k k'
    then match dict_get d k with Some _ => Some v | None => None end
    else dict_get d k'.
Proof.
  induction d as [|[k0 v0] d IH]; simpl.
  - destruct (String.eqb k k'); reflexivity.
  - destruct (String.eqb_spec k0 k) as [->|Hne]; simpl.
    + destruct (String.eqb k k'); [reflexivity|exact IH].
    + destruct (String.eqb_spec k0 k') as [->|Hne'].
      * destruct (String.eqb_spec k k'); [congruence|reflexivity].
      * exact IH.
Qed.

Lemma dict_get_set (d : pydict) (k k' : string) (v : pyarg) :
  dict_get (dict_set d k v) k' = if String.eqb k k' then Some v else dict_get d k'.
Proof.
  unfold dict_set. destruct (dict_get d k) as [v0|] eqn:Hk.
  - rewrite dict_get_replace, Hk. reflexivity.
  - rewrite dict_get_app. simpl.
    destruct (String.eqb_spec k k') as [<-|Hne].
    + rewrite Hk. reflexivity.
    + destruct (dict_get d k'); reflexivity.
Qed.

(** The keywords that the loop leaves in [kwargs]. *)
Lemma pop_connect_args_keys (params : list string) (kwargs connect_args : pydict) :
  dict_keys (pop_connect_args params kwargs connect_args).1
  = filter (fun k => k ∉ params) (dict_keys kwargs).
Proof.
  revert kwargs connect_args.
  induction params as [|p params IH]; intros kwargs connect_args; simpl.
  - induction (dict_keys kwargs) as [|k l IHl]; [reflexivity|].
    rewrite filter_cons_True by apply not_elem_of_nil. rewrite <- IHl. reflexivity.
  - assert (Hdel : dict_keys (pop_connect_args params (dict_del kwargs p)
                                (match dict_get kwargs p with
                                 | Some v => dict_set connect_args p v
                                 | None => connect_args
                                 end)).1
                   = filter (fun k => k ∉ p :: params) (dict_keys kwargs)).
    { rewrite IH, dict_keys_del, list_filter_filter.
      apply list_filter_iff. intros k. rewrite not_elem_of_cons. tauto. }
    destruct (dict_get kwargs p) as [v|] eqn:Hp; [exact Hdel|].
    rewrite (dict_del_absent kwargs p Hp) in Hdel. exact Hdel.
Qed.

(** What the loop stores in [_connect_args]. *)
Lemma pop_connect_args_get (params : list string) (kwargs connect_args : pydict)
    (k : string) :
  NoDup params ->
  dict_get (pop_connect_args params kwargs connect_args).2 k
  = if bool_decide (k ∈ params)
    then match dict_get kwargs k with
         | Some v => Some v
         | None => dict_get connect_args k
         end
    else dict_get connect_args k.
Proof.
  intros Hnodup. revert kwargs connect_args.
  induction Hnodup as [|p params Hp _ IH]; intros kwargs connect_args; simpl.
  - reflexivity.
  - destruct (dict_get kwargs p) as [v|] eqn:Hget.
    + rewrite IH, dict_get_del, dict_get_set.
      destruct (String.eqb_spec p k) as [->|Hne].
      * rewrite (bool_decide_eq_false_2 _ Hp).
        rewrite bool_decide_eq_true_2 by apply list_elem_of_here.
        rewrite Hget. reflexivity.
      * destruct (decide (k ∈ params)) as [Hin|Hnin].
        -- rewrite (bool_decide_eq_true_2 _ Hin).
           rewrite bool_decide_eq_true_2 by (apply list_elem_of_further; exact Hin).
           reflexivity.
        -- rewrite (bool_decide_eq_false_2 _ Hnin).
           rewrite bool_decide_eq_false_2; [reflexivity|].
           rewrite elem_of_cons. intros [->|Hin]; [apply Hne; reflexivity|exact (Hnin Hin)].
    + rewrite IH.
      destruct (String.eqb_spec p k) as [->|Hne].
      * rewrite (bool_decide_eq_false_2 _ Hp).
        rewrite bool_decide_eq_true_2 by apply list_elem_of_here.
        rewrite Hget. reflexivity.
      * destruct (decide (k ∈ params)) as [Hin|Hnin].
        -- rewrite (bool_decide_eq_true_2 _ Hin).
           rewrite bool_decide_eq_true_2 by (apply list_elem_of_further; exact Hin).
           reflexivity.
        -- rewrite (bool_decide_eq_false_2 _ Hnin).
           rewrite bool_decide_eq_false_2; [reflexivity|].
           rewrite elem_of_cons. intros [->|Hin]; [apply Hne; reflexivity|exact (Hnin Hin)].
Qed.

Lemma NoDup_valid_connect_params : NoDup _valid_connect_params.
Proof.
  unfold _valid_connect_params.
  repeat (apply NoDup_cons_2;
          [intros H; decompose_list_elem_of; discriminate|]).
  apply NoDup_nil_2.
Qed.

(** The keywords left in [kwargs] when [__init__] tests it. *)
Lemma SshTransport__init___leftover (kwargs : pydict) :
  dict_keys (pop_connect_args _valid_connect_params
               (dict_del (dict_del kwargs "load_system_host_keys") "key_policy") []).1
  = filter (fun k => k ∉ accepted_keywords) (dict_keys kwargs).
Proof.
  rewrite pop_connect_args_keys, !dict_keys_del, !list_filter_filter.
  apply list_filter_iff. intros k. unfold accepted_keywords.
  rewrite !not_elem_of_cons. tauto.
Qed.

(** X14: when loading the host keys does not fail, [__init__] raises
    [ValueError] exactly when a keyword is given that is neither
    [load_system_host_keys], [key_policy] nor one of
    [_valid_connect_params], and the message lists the keywords that were
    not accepted, in the order of [kwargs]; by then the client has been
    given its policy for missing host keys. *)
Theorem SshTransport__init___keywords (machine : string) (kwargs : pydict) :
  let r := SshTransport__init__ machine kwargs None in
  let rejected := filter (fun k => k ∉ accepted_keywords) (dict_keys kwargs) in
  setup_set_missing_host_key_policy
    (default RejectPolicy (dict_get kwargs "key_policy")) ∈ r.1 /\
  match rejected with
  | [] => exists config, r.2 = inr config
  | _ :: _ =>
      r.2 = inl (ValueError
                   ("The following parameters were not accepted by the transport: "
                    +:+ String.concat "," rejected))
  end.
Proof.
  intros r rejected. subst r rejected. unfold SshTransport__init__.
  pose proof (SshTransport__init___leftover kwargs) as Hleft.
  rewrite dict_get_del. cbn [String.eqb Ascii.eqb Bool.eqb].
  assert (Hnone : (if truthy (default (ArgBool false)
                                (dict_get kwargs "load_system_host_keys"))
                   then @None pyexc else None) = None)
    by (destruct (truthy _); reflexivity).
  rewrite Hnone.
  destruct (pop_connect_args _valid_connect_params _ []) as [left connect_args].
  simpl in Hleft. rewrite <- Hleft.
  destruct left as [|kv left]; simpl.
  - split; [|eexists; reflexivity].
    apply elem_of_app. right. apply list_elem_of_here.
  - split; [|reflexivity].
    apply elem_of_app. right. apply list_elem_of_here.
Qed.

(** The attributes that [__init__] has set when it returns. *)
Lemma SshTransport__init___fields (machine : string) (kwargs : pydict)
    (load_keys : option pyexc) (config : SshTransportConfig) :
  let r := SshTransport__init__ machine kwargs load_keys in
  r.2 = inr config ->
  _is_open (transport config) = false /\
  _machine (transport config) = machine /\
  _missing_key_policy config = default RejectPolicy (dict_get kwargs "key_policy") /\
  (setup_load_system_host_keys ∈ r.1 <->
   truthy (default (ArgBool false) (dict_get kwargs "load_system_host_keys")) = true) /\
  forall k,
    dict_get (_connect_args config) k
    = if bool_decide (k ∈ _valid_connect_params) then dict_get kwargs k else None.
Proof.
  intros r. subst r. unfold SshTransport__init__.
  rewrite dict_get_del. cbn [String.eqb Ascii.eqb Bool.eqb].
  set (load := default (ArgBool false) (dict_get kwargs "load_system_host_keys")).
  destruct (if truthy load then load_keys else None) as [e|] eqn:Hload;
    [simpl; discriminate|].
  pose proof (fun k => pop_connect_args_get _valid_connect_params
                (dict_del (dict_del kwargs "load_system_host_keys") "key_policy") [] k
                NoDup_valid_connect_params) as Hget.
  destruct (pop_connect_args _valid_connect_params _ []) as [left connect_args].
  simpl in Hget.
  destruct left as [|kv left]; simpl; [|discriminate].
  intros [= <-]. simpl.
  split; [reflexivity|]. split; [reflexivity|]. split; [reflexivity|]. split.
  - destruct (truthy load); simpl.
    + split; [reflexivity|intros _; apply list_elem_of_here].
    + split; [|discriminate].
      intros H. decompose_list_elem_of; discriminate.
  - intros k. rewrite Hget.
    destruct (bool_decide (k ∈ _valid_connect_params)) eqn:Hk; [|reflexivity].
    apply bool_decide_eq_true_1 in Hk.
    rewrite !dict_get_del.
    assert (Hne : String.eqb "key_policy" k = false /\
                  String.eqb "load_system_host_keys" k = false).
    { unfold _valid_connect_params in Hk.
      decompose_list_elem_of; subst; split; reflexivity. }
    destruct Hne as [-> ->]. destruct (dict_get kwargs k); reflexivity.
Qed.

(** X15: when [__init__] returns, the transport is not open, the policy is
    the one given as [key_policy] or else [paramiko.RejectPolicy()], the
    system host keys have been loaded exactly when a true
    [load_system_host_keys] was given, and [_connect_args] holds each
    parameter of [_valid_connect_params] that was given, with its value, and
    nothing else. *)
Theorem SshTransport__init___connect_args (machine : string) (kwargs : pydict)
    (load_keys : option pyexc) (config : SshTransportConfig) :
  let r := SshTransport__init__ machine kwargs load_keys in
  r.2 = inr config ->
  _is_open (transport config) = false /\
  _machine (transport config) = machine /\
  _missing_key_policy config = default RejectPolicy (dict_get kwargs "key_policy") /\
  (setup_load_system_host_keys ∈ r.1 <->
   truthy (default (ArgBool false) (dict_get kwargs "load_system_host_keys")) = true) /\
  forall k,
    dict_get (_connect_args config) k
    = if bool_decide (k ∈ _valid_connect_params) then dict_get kwargs k else None.
Proof.
  exact (SshTransport__init___fields machine kwargs load_keys config).
Qed.

Lemma append_assoc (a b c : string) : (a +:+ b) +:+ c = a +:+ (b +:+ c).
Proof.
  induction a as [|x a IH]; [reflexivity|].
  change (String x ((a +:+ b) +:+ c) = String x (a +:+ b +:+ c)).
  rewrite IH. reflexivity.
Qed.

Lemma unicode_of_decodes (x : pyarg) :
  decodes x = true -> unicode_of x = Unicode (text_of x).
Proof.
  unfold decodes, unicode_of.
  destruct x as [|[|]|z|s|s]; simpl; try reflexivity;
    destruct (is_ascii s); [reflexivity|discriminate|reflexivity|discriminate].
Qed.

Lemma unicode_of_fails (x : pyarg) :
  decodes x = false -> exists object, unicode_of x = UnicodeDecodeError object.
Proof.
  unfold decodes.
  destruct (unicode_of x) as [text|object]; [discriminate|]. intros _. eauto.
Qed.

(** X16: for a transport that [__init__] returned, when the machine name
    and the [username] and [port] given to the constructor are all text that
    [unicode] decodes, the description is
    [SshTransport(<user>@<machine>:<port>)], where the user and the [@] are
    there exactly when [username] was given and the colon and the port
    exactly when [port] was; when one of them is a byte string with a byte
    that is not ASCII, [__unicode__] raises [UnicodeDecodeError]. *)
Theorem __unicode___shows_connection (machine : string) (kwargs : pydict)
    (load_keys : option pyexc) (config : SshTransportConfig) :
  (SshTransport__init__ machine kwargs load_keys).2 = inr config ->
  let username := dict_get kwargs "username" in
  let port := dict_get kwargs "port" in
  let shown := ArgStr machine :: option_list username ++ option_list port in
  (forallb decodes shown = true ->
   __unicode__ config
   = Unicode ("SshTransport("
              +:+ match username with
                  | Some u => text_of u +:+ "@"
                  | None => ""
                  end
              +:+ machine
              +:+ match port with
                  | Some p => ":" +:+ text_of p
                  | None => ""
                  end
              +:+ ")")) /\
  (forallb decodes shown = false ->
   exists object, __unicode__ config = UnicodeDecodeError object).
Proof.
  intros Hinit username port shown. subst username port shown.
  destruct (SshTransport__init___fields machine kwargs load_keys config Hinit)
    as (_ & Hmachine & _ & _ & Hget).
  unfold __unicode__. rewrite Hmachine, !Hget.
  rewrite !bool_decide_eq_true_2
    by (unfold _valid_connect_params; in_trace).
  destruct (decodes (ArgStr machine)) eqn:Hm.
  2:{ destruct (unicode_of_fails _ Hm) as [o ->]. simpl. rewrite Hm.
      split; [discriminate|]. intros _. eauto. }
  rewrite (unicode_of_decodes _ Hm).
  destruct (dict_get kwargs "username") as [u|]; simpl; rewrite Hm; simpl.
  - destruct (decodes u) eqn:Hu; simpl.
    2:{ destruct (unicode_of_fails _ Hu) as [o ->]. simpl.
        split; [discriminate|]. intros _. eauto. }
    rewrite (unicode_of_decodes _ Hu). simpl.
    destruct (dict_get kwargs "port") as [p|]; simpl.
    + destruct (decodes p) eqn:Hp; simpl.
      2:{ destruct (unicode_of_fails _ Hp) as [o ->]. simpl.
          split; [discriminate|]. intros _. eauto. }
      rewrite (unicode_of_decodes _ Hp). simpl.
      split; [intros _|discriminate]. f_equal.
      change ("SshTransport(" +:+ ((text_of u +:+ "@" +:+ machine) +:+ ":" +:+ text_of p)
                              +:+ ")"
              = "SshTransport(" +:+ (text_of u +:+ "@") +:+ machine
                                +:+ (":" +:+ text_of p) +:+ ")").
      rewrite !append_assoc. reflexivity.
    + split; [intros _|discriminate]. f_equal.
      change ("SshTransport(" +:+ (text_of u +:+ "@" +:+ machine) +:+ ")"
              = "SshTransport(" +:+ (text_of u +:+ "@") +:+ machine +:+ "" +:+ ")").
      rewrite !append_assoc. reflexivity.
  - destruct (dict_get kwargs "port") as [p|]; simpl.
    + destruct (decodes p) eqn:Hp; simpl.
      2:{ destruct (unicode_of_fails _ Hp) as [o ->]. simpl.
          split; [discriminate|]. intros _. eauto. }
      rewrite (unicode_of_decodes _ Hp). simpl.
      split; [intros _|discriminate]. f_equal.
      change ("SshTransport(" +:+ (machine +:+ ":" +:+ text_of p) +:+ ")"
              = "SshTransport(" +:+ "" +:+ machine +:+ (":" +:+ text_of p) +:+ ")").
      rewrite !append_assoc. reflexivity.
    + split; [intros _|discriminate]. reflexivity.
Qed.

End Constructor.

(** ** The further properties at work on the reference host *)

Lemma chdir_None_only_checks_witness :
  _is_open opened = true /\
  run paramiko (chdir opened None) host
  = (Returned tt, host, [EvCall (sftp_stat ".") (inr dir_attributes)]).
Proof.
  split; [reflexivity|].
  exact (chdir_None_only_checks paramiko opened host eq_refl).
Defined.

Lemma __enter___sets_working_directory_witness :
  let r := run paramiko (__enter__ (__init__ "localhost")) host in
  outcome_of r = Returned opened /\
  exists here,
    trace_of r =
      [EvCall (client_connect "localhost") (inr tt);
       EvCall client_open_sftp (inr tt);
       EvCall (sftp_normalize ".") (inr here);
       EvCall (sftp_chdir here) (inr tt)].
Proof.
  split; [reflexivity|].
  exact (proj2 (proj1 (__enter___sets_working_directory paramiko
                         (__init__ "localhost") host) opened eq_refl)).
Defined.

Lemma with_block_opens_and_closes_witness :
  outcome_of (run paramiko (__enter__ (__init__ "localhost")) host) = Returned opened /\
  outcome_of (run paramiko (__exit__ opened) host) = Returned (__init__ "localhost") /\
  run paramiko (listdir (__init__ "localhost") ".") host
  = (Raised (TransportInternalError
       "Error, sftp method called for SshTransport without opening the channel first"),
     host, []).
Proof.
  split; [reflexivity|]. split; [reflexivity|].
  exact (proj1 (proj2 (with_block_opens_and_closes quote_for_bash paramiko
                         (__init__ "localhost") opened (__init__ "localhost")
                         host host host "." "ls" false (-1) eq_refl eq_refl))).
Defined.

Lemma chmod_checks_path_witness :
  "/home/user/notes.txt" <> "" /\
  _is_open opened = true /\
  run paramiko (chmod opened "/home/user/notes.txt" 420) host
  = (Returned tt, host, [EvCall (sftp_chmod "/home/user/notes.txt" 420) (inr tt)]).
Proof.
  assert (Hpath : "/home/user/notes.txt" <> "") by discriminate.
  split; [exact Hpath|]. split; [reflexivity|].
  exact (proj2 (chmod_checks_path paramiko opened "/home/user/notes.txt" 420 host)
               Hpath eq_refl).
Defined.

Lemma put_get_need_absolute_localpath_witness :
  isabs "notes.txt" = false /\
  run paramiko (put opened "notes.txt" "/home/user/notes.txt" None) host
  = (Raised (ValueError "The localpath must be an absolute path"), host, []) /\
  isabs "/tmp/notes.txt" = true /\
  run paramiko (get opened "/home/user/notes.txt" "/tmp/notes.txt" None) host
  = (Returned tt, host,
     [EvCall (sftp_get "/home/user/notes.txt" "/tmp/notes.txt" None) (inr tt)]).
Proof.
  split; [reflexivity|]. split.
  - exact (proj1 (proj1 (put_get_need_absolute_localpath paramiko opened "notes.txt"
                           "/home/user/notes.txt" None host) eq_refl)).
  - split; [reflexivity|].
    exact (proj2 (proj2 (put_get_need_absolute_localpath paramiko opened
                           "/tmp/notes.txt" "/home/user/notes.txt" None host)
                        eq_refl eq_refl)).
Defined.

Lemma copy_refuses_empty_paths_witness :
  "a" <> "" /\
  run paramiko (copy quote_for_bash opened "a" "" false) host
  = (Raised (ValueError
       "Input to copy() must be a non empty string. Found instead  as remotedestination"),
     host, []).
Proof.
  assert (Ha : "a" <> "") by discriminate.
  split; [exact Ha|].
  exact (proj2 (copy_refuses_empty_paths quote_for_bash paramiko opened "a" "b" false host)
               Ha).
Defined.

Lemma copy_warns_on_visible_stderr_witness :
  let w := with_command_result host 0 "" "cp: omitting directory" in
  let r := run paramiko (copy quote_for_bash opened "a" "b" false) w in
  "a" <> "" /\ "b" <> "" /\
  outcome_of r = Returned true /\
  EvLog WARNING "There was nonempty stderr in the cp command: {}"
        [LStr "cp: omitting directory"] ∈ trace_of r.
Proof.
  assert (Ha : "a" <> "") by discriminate.
  assert (Hb : "b" <> "") by discriminate.
  split; [exact Ha|]. split; [exact Hb|].
  pose proof (copy_warns_on_visible_stderr quote_for_bash paramiko opened "a" "b" false
                (with_command_result host 0 "" "cp: omitting directory")
                (world_of (run paramiko
                   (exec_command_wait quote_for_bash opened "cp -r -f 'a' 'b'" None
                      false (-1))
                   (with_command_result host 0 "" "cp: omitting directory")))
                "" "cp: omitting directory"
                (trace_of (run paramiko
                   (exec_command_wait quote_for_bash opened "cp -r -f 'a' 'b'" None
                      false (-1))
                   (with_command_result host 0 "" "cp: omitting directory")))
                Ha Hb eq_refl) as [Hret _].
  split; [exact Hret|].
  vm_compute. in_trace.
Defined.

Lemma _exec_command_internal_sequence_witness :
  let r := run paramiko (_exec_command_internal quote_for_bash opened "ls" true 4096)
             host in
  outcome_of r
  = Returned (mkChannelFile 0%nat "wb" false 4096, mkChannelFile 0%nat "rb" false 4096,
              mkChannelFile 0%nat "rb" true 4096, 0%nat) /\
  failures (trace_of r) = [] /\
  exists n c,
    (n = 1 \/ n = 2)%nat /\
    requests (trace_of r) =
      [client_open_session; channel_set_combine_stderr 0%nat true]
      ++ replicate n sftp_getcwd
      ++ [channel_exec_command 0%nat c;
          channel_makefile 0%nat "wb" 4096;
          channel_makefile 0%nat "rb" 4096;
          channel_makefile_stderr 0%nat "rb" 4096].
Proof.
  split; [reflexivity|].
  exact (proj2 (proj2 (proj2 (_exec_command_internal_sequence quote_for_bash paramiko
                                opened "ls" true 4096 host _ _ _ _ eq_refl)))).
Defined.


Lemma exec_command_wait_stops_at_failed_write_witness :
  let r := run broken_pipe
             (exec_command_wait quote_for_bash opened "true" (Some (PyStr "abc")) false
                (-1))
             host in
  IOError (Some 32) "Broken pipe" ∈ write_failures (trace_of r) /\
  outcome_of r = Raised (IOError (Some 32) "Broken pipe") /\
  Forall (fun ev => is_stream_io ev = false \/ is_stdin_write ev = true) (trace_of r).
Proof.
  assert (Hin : IOError (Some 32) "Broken pipe"
                ∈ write_failures (trace_of (run broken_pipe
                     (exec_command_wait quote_for_bash opened "true"
                        (Some (PyStr "abc")) false (-1))
                     host))).
  { vm_compute. in_trace. }
  split; [exact Hin|].
  exact (exec_command_wait_stops_at_failed_write quote_for_bash broken_pipe opened "true"
           (Some (PyStr "abc")) false (-1) host (IOError (Some 32) "Broken pipe") Hin).
Defined.

Lemma copy_issues_cp_witness :
  "a b" <> "" /\ "c" <> "" /\
  issued_commands (trace_of (run paramiko (copy quote_for_bash opened "a b" "c" true)
                               host))
  = ["cd '/home/user' && cp -r -f -L 'a b' 'c'"].
Proof.
  assert (Ha : "a b" <> "") by discriminate.
  assert (Hc : "c" <> "") by discriminate.
  split; [exact Ha|]. split; [exact Hc|].
  destruct (copy_issues_cp quote_for_bash paramiko opened "a b" "c" true host Ha Hc)
    as [Hnone|(cwd & Hcwd & Hcmd)].
  - vm_compute in Hnone. discriminate Hnone.
  - vm_compute. reflexivity.
Defined.

Lemma SshTransport__init___connect_args_witness :
  let kwargs := [("username", ArgStr "me"); ("load_system_host_keys", ArgBool true);
                 ("port", ArgInt 22)] in
  let config := mkSshTransportConfig (__init__ "localhost") (ArgBool true) RejectPolicy
                  [("port", ArgInt 22); ("username", ArgStr "me")] in
  (SshTransport__init__ "localhost" kwargs None).2 = inr config /\
  dict_get (_connect_args config) "username" = Some (ArgStr "me") /\
  dict_get (_connect_args config) "load_system_host_keys" = None.
Proof.
  split; [reflexivity|].
  pose proof (SshTransport__init___connect_args "localhost"
                [("username", ArgStr "me"); ("load_system_host_keys", ArgBool true);
                 ("port", ArgInt 22)] None
                (mkSshTransportConfig (__init__ "localhost") (ArgBool true) RejectPolicy
                   [("port", ArgInt 22); ("username", ArgStr "me")]) eq_refl)
    as (_ & _ & _ & _ & Hget).
  split; [reflexivity|]. rewrite Hget. reflexivity.
Defined.

Lemma __unicode___shows_connection_witness :
  let kwargs := [("username", ArgStr "me"); ("port", ArgInt 22)] in
  let config := mkSshTransportConfig (__init__ "localhost") (ArgBool false) RejectPolicy
                  [("port", ArgInt 22); ("username", ArgStr "me")] in
  (SshTransport__init__ "localhost" kwargs None).2 = inr config /\
  forallb decodes [ArgStr "localhost"; ArgStr "me"; ArgInt 22] = true /\
  __unicode__ config = Unicode "SshTransport(me@localhost:22)".
Proof.
  split; [reflexivity|]. split; [reflexivity|].
  exact (proj1 (__unicode___shows_connection "localhost"
                  [("username", ArgStr "me"); ("port", ArgInt 22)] None
                  (mkSshTransportConfig (__init__ "localhost") (ArgBool false)
                     RejectPolicy [("port", ArgInt 22); ("username", ArgStr "me")])
                  eq_refl) eq_refl).
Defined.

(** A machine name with a byte that is not ASCII: the description cannot
    be built. *)
Lemma __unicode___non_ascii_machine :
  let machine := String (ascii_of_nat 233) "cole" in
  (SshTransport__init__ machine [] None).2
  = inr (mkSshTransportConfig (__init__ machine) (ArgBool false) RejectPolicy []) /\
  __unicode__ (mkSshTransportConfig (__init__ machine) (ArgBool false) RejectPolicy [])
  = UnicodeDecodeError machine.
Proof.
  split; reflexivity.
Qed.
